(** * A shallow embedding of the chat client in [frontend/src/App.tsx]

    The source file holds two variants of the same React component.  The
    first one ([VariantA] below) refetches the thread from the backend after
    a send and reports failures through an [error] state; the second one
    ([VariantB]) inserts the user's message optimistically and reports
    failures as an assistant bubble in the thread.

    Async functions are embedded as finite trees of effects ([Async]); an
    explicit scheduler ([run]) threads the React state, the pool of
    requests that were started without being awaited, and a log of request
    and response events.

    What the embedding keeps and what it leaves out:
    - a handler reads the state through the closure of the render it was
      created in (its argument [snap]) and writes it through the setters,
      which act on the current state;
    - a [fetch] and the reading of its body are one request, outstanding
      from the call to the moment the continuation runs;
    - the parsed body of a response has the type the source gives it
      ([response.json()] is not validated);
    - the base address of the backend, [console] output and the rendering
      (JSX, [ReactMarkdown]) are left out. *)

From Stdlib Require Import List ZArith NArith Bool Lia String Ascii DecimalString.
Import ListNotations.
Open Scope Z_scope.

(** ** JavaScript strings

    A JavaScript string is a sequence of UTF-16 code units; [trim] and
    [substring] work on code units. *)
Module Js.

Definition jsstring : Type := list N.

(** A string literal of the source (ASCII only). *)
Definition lit (s : string) : jsstring :=
  map N_of_ascii (list_ascii_of_string s).

(** ECMAScript [WhiteSpace] and [LineTerminator] code points, the ones
    [String.prototype.trim] strips.  All of them lie in the BMP. *)
Definition is_white_space (c : N) : bool :=
  ((9 <=? c) && (c <=? 13) ||
   (c =? 32) || (c =? 160) || (c =? 5760) ||
   ((8192 <=? c) && (c <=? 8202)) ||
   (c =? 8232) || (c =? 8233) || (c =? 8239) || (c =? 8287) ||
   (c =? 12288) || (c =? 65279))%N.

Fixpoint trimStart (s : jsstring) : jsstring :=
  match s with
  | [] => []
  | c :: s' => if is_white_space c then trimStart s' else s
  end.

Definition trimEnd (s : jsstring) : jsstring :=
  rev (trimStart (rev s)).

Definition trim (s : jsstring) : jsstring := trimEnd (trimStart s).

(** [s.substring(a, b)] for non-negative integer arguments: both are
    clamped to the length and swapped when out of order. *)
Definition substring (a b : nat) (s : jsstring) : jsstring :=
  let a' := Nat.min a (List.length s) in
  let b' := Nat.min b (List.length s) in
  let lo := Nat.min a' b' in
  let hi := Nat.max a' b' in
  firstn (hi - lo) (skipn lo s).

(** Truthiness of a string: only the empty string is falsy. *)
Definition truthy (s : jsstring) : bool :=
  match s with [] => false | _ :: _ => true end.

(** [a || b] on strings. *)
Definition or_else (a b : jsstring) : jsstring :=
  if truthy a then a else b.

(** [`${n}`] for an integral number. *)
Definition of_number (n : Z) : jsstring :=
  lit (NilZero.string_of_int (Z.to_int n)).

(** An exception value; only its [message] is ever inspected. *)
Record Error := mkError { message : jsstring }.

End Js.
Import Js.

(** ** Data model (the two [type] declarations of the source) *)

Module Conversation.
Record t := mk { id : Z; title : jsstring; created_at : jsstring }.
End Conversation.

Inductive Role := user | assistant.

Module Message.
Record t := mk
  { id : Z;
    role : Role;
    content : jsstring;
    conversation_id : Z;
    created_at : jsstring }.
End Message.

(** ** The backend's REST surface *)

Inductive Request :=
| GET_conversations
| GET_messages (conversationId : Z)
| POST_conversations (title : jsstring)
| POST_messages (conversationId : Z) (content : jsstring).

(** The TypeScript type the source gives to the parsed body of each
    response ([response.json()] is not validated at run time). *)
Definition resp_type (r : Request) : Type :=
  match r with
  | GET_conversations => list Conversation.t
  | GET_messages _ => list Message.t
  | POST_conversations _ => Conversation.t
  | POST_messages _ _ => Message.t
  end.

Definition is_refresh (r : Request) : bool :=
  match r with GET_conversations => true | _ => false end.

(** What [response.json()] gives: the parsed value, or a [SyntaxError]. *)
Inductive JsonResult (T : Type) :=
| JsonOk (v : T)
| JsonSyntaxError (msg : jsstring).
Arguments JsonOk {T} v.
Arguments JsonSyntaxError {T} msg.

Record Response (T : Type) := mkResponse
  { status : Z;
    body_text : jsstring;
    body_json : JsonResult T }.
Arguments mkResponse {T}.
Arguments status {T}.
Arguments body_text {T}.
Arguments body_json {T}.

(** [response.ok]: the status is in the range 200-299. *)
Definition ok {T} (r : Response T) : bool :=
  (200 <=? status r) && (status r <=? 299).

(** How a [fetch] settles: the promise rejects (network failure), or it
    resolves with a response of any status. *)
Inductive FetchResult (T : Type) :=
| NetworkError (msg : jsstring)
| Responded (r : Response T).
Arguments NetworkError {T} msg.
Arguments Responded {T} r.

(** The two clock reads of the source. *)
Inductive Clock := Date_now | Date_toISOString.

Definition clock_type (c : Clock) : Type :=
  match c with
  | Date_now => Z
  | Date_toISOString => jsstring
  end.

(** ** Async functions as effect trees *)

Section Async.

(** The React state of the component. *)
Variable St : Type.

(** [SetState f] is a call of a state setter, [ReadClock] a read of the
    clock, [Fetch r] an awaited request (the [fetch] together with the
    reading of the body: the request is outstanding until the
    continuation runs), and [Fork p] a call of the async function [p]
    whose promise is dropped. *)
Inductive Async (A : Type) : Type :=
| Ret (a : A)
| Throw (e : Error)
| SetState (f : St -> St) (k : Async A)
| ReadClock (c : Clock) (k : clock_type c -> Async A)
| Fetch (r : Request) (k : FetchResult (resp_type r) -> Async A)
| Fork (p : Async unit) (k : Async A).

Arguments Ret {A} a.
Arguments Throw {A} e.
Arguments SetState {A} f k.
Arguments ReadClock {A} c k.
Arguments Fetch {A} r k.
Arguments Fork {A} p k.

Fixpoint bind {A B : Type} (p : Async A) (f : A -> Async B) : Async B :=
  match p with
  | Ret a => f a
  | Throw e => Throw e
  | SetState g k => SetState g (bind k f)
  | ReadClock c k => ReadClock c (fun x => bind (k x) f)
  | Fetch r k => Fetch r (fun x => bind (k x) f)
  | Fork q k => Fork q (bind k f)
  end.

(** [try { p } catch (e) { h e }] *)
Fixpoint try_catch {A : Type} (p : Async A) (h : Error -> Async A) : Async A :=
  match p with
  | Ret a => Ret a
  | Throw e => h e
  | SetState g k => SetState g (try_catch k h)
  | ReadClock c k => ReadClock c (fun x => try_catch (k x) h)
  | Fetch r k => Fetch r (fun x => try_catch (k x) h)
  | Fork q k => Fork q (try_catch k h)
  end.

(** [try { p } finally { fin }]: [fin] runs on both exits and the
    completion of [p] stands unless [fin] itself throws. *)
Fixpoint finally {A : Type} (p : Async A) (fin : Async unit) : Async A :=
  match p with
  | Ret a => bind fin (fun _ => Ret a)
  | Throw e => bind fin (fun _ => Throw e)
  | SetState g k => SetState g (finally k fin)
  | ReadClock c k => ReadClock c (fun x => finally (k x) fin)
  | Fetch r k => Fetch r (fun x => finally (k x) fin)
  | Fork q k => Fork q (finally k fin)
  end.

(** A setter call as a statement. *)
Definition set (f : St -> St) : Async unit := SetState f (Ret tt).

(** [await fetch(...)]: rejects with the network failure. *)
Definition fetch (r : Request) : Async (Response (resp_type r)) :=
  Fetch r (fun x =>
    match x with
    | NetworkError msg => Throw (mkError msg)
    | Responded resp => Ret resp
    end).

(** [await response.json()] *)
Definition json {T} (resp : Response T) : Async T :=
  match body_json resp with
  | JsonOk v => Ret v
  | JsonSyntaxError msg => Throw (mkError msg)
  end.

(** [await response.text()] *)
Definition text {T} (resp : Response T) : Async jsstring :=
  Ret (body_text resp).

(** *** The scheduler *)

Inductive Outcome (A : Type) :=
| Returned (a : A)
| Threw (e : Error).
Arguments Returned {A} a.
Arguments Threw {A} e.

(** A request started by a call nobody awaits, with what that call does
    once the response is in. *)
Record Pending := mkPending
  { p_seq : nat;
    p_req : Request;
    p_ret : Type;
    p_k : FetchResult (resp_type p_req) -> Async p_ret }.

(** [EvRequest n r s]: request number [n] leaves, the state being [s];
    [EvResponse n r]: its response is handed to the function that waits. *)
Inductive Event :=
| EvRequest (seq : nat) (r : Request) (snapshot : St)
| EvResponse (seq : nat) (r : Request).

Record World := mkWorld
  { w_state : St;
    w_pool : list Pending;
    w_seq : nat;
    w_ticks : nat;
    w_log : list Event }.

(** The environment: the backend's answer to the [n]-th request, the
    value of the [n]-th clock read, and, for the [n]-th request when the
    handler awaits it, which pending background requests (by position in
    the pool) are answered before it. *)
Record Env := mkEnv
  { respond : nat -> forall r : Request, FetchResult (resp_type r);
    clock : nat -> forall c : Clock, clock_type c;
    deliveries : nat -> list nat }.

Variable env : Env.

(** The state setters act on the state of the world. *)
Definition with_state (f : St -> St) (w : World) : World :=
  mkWorld (f (w_state w)) (w_pool w) (w_seq w) (w_ticks w) (w_log w).

(** A clock read. *)
Definition tick (w : World) : World :=
  mkWorld (w_state w) (w_pool w) (w_seq w) (S (w_ticks w)) (w_log w).

(** Request [r] leaves; it gets the next number. *)
Definition request (r : Request) (w : World) : World :=
  mkWorld (w_state w) (w_pool w) (S (w_seq w)) (w_ticks w)
    (w_log w ++ [EvRequest (w_seq w) r (w_state w)]).

(** The response to request [r], numbered [n], is handed over. *)
Definition response (n : nat) (r : Request) (w : World) : World :=
  mkWorld (w_state w) (w_pool w) (w_seq w) (w_ticks w)
    (w_log w ++ [EvResponse n r]).

(** A call nobody awaits goes to the pool with its request. *)
Definition park (p : Pending) (w : World) : World :=
  mkWorld (w_state w) (w_pool w ++ [p]) (w_seq w) (w_ticks w) (w_log w).

Fixpoint remove_nth {X} (i : nat) (l : list X) : list X :=
  match l, i with
  | [], _ => []
  | _ :: l', O => l'
  | x :: l', S i' => x :: remove_nth i' l'
  end.

Definition unpark (i : nat) (w : World) : World :=
  mkWorld (w_state w) (remove_nth i (w_pool w)) (w_seq w) (w_ticks w) (w_log w).

(** Runs a background call up to its next [await]; an exception it does
    not catch is an unhandled rejection and is lost. *)
Fixpoint advance {A : Type} (p : Async A) (w : World) : World :=
  match p with
  | Ret _ => w
  | Throw _ => w
  | SetState f k => advance k (with_state f w)
  | ReadClock c k => advance (k (clock env (w_ticks w) c)) (tick w)
  | Fetch r k => request r (park (mkPending (w_seq w) r A k) w)
  | Fork q k => advance k (advance q w)
  end.

(** The response to the [i]-th pending background request arrives. *)
Definition deliver (w : World) (i : nat) : World :=
  match nth_error (w_pool w) i with
  | None => w
  | Some p =>
      advance (p_k p (respond env (p_seq p) (p_req p)))
        (response (p_seq p) (p_req p) (unpark i w))
  end.

(** The responses to the pending background requests at the positions
    [l] arrive, in that order. *)
Definition settle (l : list nat) (w : World) : World :=
  fold_left deliver l w.

(** The handler awaits request [r]: the request leaves, background
    responses may arrive, then the handler's own response arrives. *)
Definition awaited (r : Request) (w : World) : World :=
  response (w_seq w) r (settle (deliveries env (w_seq w)) (request r w)).

(** Runs the handler to completion. *)
Fixpoint run {A : Type} (p : Async A) (w : World) : Outcome A * World :=
  match p with
  | Ret a => (Returned a, w)
  | Throw e => (Threw e, w)
  | SetState f k => run k (with_state f w)
  | ReadClock c k => run (k (clock env (w_ticks w) c)) (tick w)
  | Fetch r k => run (k (respond env (w_seq w) r)) (awaited r w)
  | Fork q k => run k (advance q w)
  end.

(** The world in which a user action starts: nothing is outstanding. *)
Definition init_world (s : St) : World := mkWorld s [] 0 0 [].

(** *** Requests along a log *)

Definition event_request (e : Event) : Request :=
  match e with EvRequest _ r _ => r | EvResponse _ r => r end.

(** The largest number of requests outstanding at any point of [l],
    starting from [n] outstanding ones. *)
Fixpoint max_outstanding (n : nat) (l : list Event) : nat :=
  match l with
  | [] => n
  | EvRequest _ _ _ :: l' => Nat.max n (max_outstanding (S n) l')
  | EvResponse _ _ :: l' => Nat.max n (max_outstanding (pred n) l')
  end.

(** The events of the requests the handler awaits itself: all but the
    refresh of the list of conversations, which it starts and drops. *)
Definition own_requests (l : list Event) : list Event :=
  filter (fun e => negb (is_refresh (event_request e))) l.

(** The requests of a log with their numbers, in the order they left. *)
Fixpoint numbered (l : list Event) : list (nat * Request) :=
  match l with
  | [] => []
  | EvRequest n r _ :: l' => (n, r) :: numbered l'
  | EvResponse _ _ :: l' => numbered l'
  end.

Definition requests (l : list Event) : list Request := map snd (numbered l).

(** The states in which the requests of a log left. *)
Fixpoint snapshots (l : list Event) : list St :=
  match l with
  | [] => []
  | EvRequest _ _ s :: l' => s :: snapshots l'
  | EvResponse _ _ :: l' => snapshots l'
  end.

End Async.

Arguments Ret {St A} a.
Arguments Throw {St A} e.
Arguments SetState {St A} f k.
Arguments ReadClock {St A} c k.
Arguments Fetch {St A} r k.
Arguments Fork {St A} p k.
Arguments bind {St A B} p f.
Arguments try_catch {St A} p h.
Arguments finally {St A} p fin.
Arguments set {St} f.
Arguments fetch {St} r.
Arguments json {St T} resp.
Arguments text {St T} resp.
Arguments Returned {A} a.
Arguments Threw {A} e.
Arguments mkPending {St} p_seq p_req p_ret p_k.
Arguments p_seq {St} p.
Arguments p_req {St} p.
Arguments p_ret {St} p.
Arguments p_k {St} p.
Arguments EvRequest {St} seq r snapshot.
Arguments EvResponse {St} seq r.
Arguments mkWorld {St} w_state w_pool w_seq w_ticks w_log.
Arguments w_state {St} w.
Arguments w_pool {St} w.
Arguments w_seq {St} w.
Arguments w_ticks {St} w.
Arguments w_log {St} w.
Arguments with_state {St} f w.
Arguments tick {St} w.
Arguments request {St} r w.
Arguments response {St} n r w.
Arguments park {St} p w.
Arguments unpark {St} i w.
Arguments awaited {St} env r w.
Arguments advance {St} env {A} p w.
Arguments remove_nth {X} i l.
Arguments deliver {St} env w i.
Arguments settle {St} env l w.
Arguments run {St} env {A} p w.
Arguments init_world {St} s.
Arguments event_request {St} e.
Arguments max_outstanding {St} n l.
Arguments own_requests {St} l.
Arguments numbered {St} l.
Arguments requests {St} l.
Arguments snapshots {St} l.

Declare Scope async_scope.
Delimit Scope async_scope with async.
Notation "x <- p ;; q" := (bind p (fun x => q))
  (at level 61, p at next level, right associativity) : async_scope.
Notation "p ;; q" := (bind p (fun _ => q))
  (at level 61, right associativity) : async_scope.
Open Scope async_scope.

(** ** The API client

    The three functions below are the same in both variants of the source
    (the variants differ in the base address only, which the embedding of
    requests leaves out). *)

Module Api.
Section WithState.

Variable St : Type.
Variable setConversations : list Conversation.t -> St -> St.

Definition fetchConversations : Async St unit :=
  try_catch
    (response <- fetch GET_conversations ;;
     data <- json response ;;
     set (setConversations data))
    (fun _ => Ret tt).

Definition createConversation (title : jsstring) : Async St Conversation.t :=
  response <- fetch (POST_conversations title) ;;
  json response.

Definition createMessage (conversationId : Z) (content : jsstring)
  : Async St Message.t :=
  response <- fetch (POST_messages conversationId content) ;;
  if negb (ok response) then
    errorText <- text response ;;
    Throw (mkError (lit "Failed to send message: " ++ of_number (status response)
                      ++ lit " - " ++ errorText))
  else json response.

End WithState.

Arguments fetchConversations {St} setConversations.
Arguments createConversation {St} title.
Arguments createMessage {St} conversationId content.

End Api.
Import Api.

(** [x?.id || d] on an optional conversation: [undefined] and [0] are
    both falsy. *)
Definition id_or (c : option Conversation.t) (d : Z) : Z :=
  match c with
  | Some c => if Conversation.id c =? 0 then d else Conversation.id c
  | None => d
  end.

(** [a === b] on strings. *)
Fixpoint str_eqb (a b : jsstring) : bool :=
  match a, b with
  | [], [] => true
  | x :: a', y :: b' => (x =? y)%N && str_eqb a' b'
  | _, _ => false
  end.

(** ** First variant: refetch after send, [error] state *)

Module VariantA.

Record State := mkState
  { messages : list Message.t;
    input : jsstring;
    conversations : list Conversation.t;
    currentConversation : option Conversation.t;
    isLoading : bool;
    pendingUserInput : jsstring;
    error : jsstring }.

Definition setMessages (v : list Message.t) (s : State) : State :=
  mkState v (input s) (conversations s) (currentConversation s) (isLoading s)
    (pendingUserInput s) (error s).

Definition setInput (v : jsstring) (s : State) : State :=
  mkState (messages s) v (conversations s) (currentConversation s) (isLoading s)
    (pendingUserInput s) (error s).

Definition setConversations (v : list Conversation.t) (s : State) : State :=
  mkState (messages s) (input s) v (currentConversation s) (isLoading s)
    (pendingUserInput s) (error s).

Definition setCurrentConversation (v : option Conversation.t) (s : State) : State :=
  mkState (messages s) (input s) (conversations s) v (isLoading s)
    (pendingUserInput s) (error s).

Definition setIsLoading (v : bool) (s : State) : State :=
  mkState (messages s) (input s) (conversations s) (currentConversation s) v
    (pendingUserInput s) (error s).

Definition setPendingUserInput (v : jsstring) (s : State) : State :=
  mkState (messages s) (input s) (conversations s) (currentConversation s)
    (isLoading s) v (error s).

Definition setError (v : jsstring) (s : State) : State :=
  mkState (messages s) (input s) (conversations s) (currentConversation s)
    (isLoading s) (pendingUserInput s) v.

(** The state of the first render. *)
Definition initial : State := mkState [] [] [] None false [] [].

Definition fetchConversations : Async State unit :=
  Api.fetchConversations setConversations.

(** [useEffect(() => { fetchConversations(); }, [])] *)
Definition onMount : Async State unit := Fork fetchConversations (Ret tt).

Definition fetchMessages (conversationId : Z) : Async State unit :=
  finally
    (try_catch
       (set (setIsLoading true) ;;
        response <- fetch (GET_messages conversationId) ;;
        (if negb (ok response) then
           Throw (mkError (lit "Failed to fetch messages: "
                             ++ of_number (status response)))
         else Ret tt) ;;
        fetchedMessages <- json response ;;
        set (setMessages fetchedMessages) ;;
        set (setError []))
       (fun _ => set (setError (lit "Failed to load messages"))))
    (set (setIsLoading false)).

(** The handlers close over the state of the render in which they were
    created ([snap]); their setter calls act on the current state. *)

Definition handleConversationClick (snap : State) (conversationId : Z)
  : Async State unit :=
  try_catch
    (let conversation :=
       find (fun c => Conversation.id c =? conversationId) (conversations snap) in
     set (setCurrentConversation conversation) ;;
     set (setError []) ;;
     fetchMessages conversationId)
    (fun _ => set (setError (lit "Failed to load conversation"))).

Definition handleNewChat : Async State unit :=
  set (setCurrentConversation None) ;;
  set (setMessages []) ;;
  set (setInput []).

Definition handleSend (snap : State) : Async State unit :=
  if negb (truthy (trim (input snap))) || isLoading snap then Ret tt else
  let userInput := input snap in
  set (setInput []) ;;
  set (setIsLoading true) ;;
  set (setError []) ;;
  set (setPendingUserInput userInput) ;;
  finally
    (try_catch
       (conversationId <-
          match currentConversation snap with
          | Some c => Ret (Conversation.id c)
          | None =>
              let title := substring 0 50 userInput in
              newConversation <- createConversation title ;;
              set (setCurrentConversation (Some newConversation)) ;;
              Fork fetchConversations (Ret (Conversation.id newConversation))
          end ;;
        aiResponse <- createMessage conversationId userInput ;;
        fetchMessages conversationId ;;
        set (setPendingUserInput []))
       (fun error =>
          set (setError (lit "Failed to send message: "
                           ++ or_else (message error) (lit "Please try again"))) ;;
          set (setInput userInput)))
    (set (setIsLoading false) ;;
     set (setPendingUserInput [])).

Definition handleKeyDown (snap : State) (key : jsstring) (shiftKey : bool)
  : Async State unit :=
  if str_eqb key (lit "Enter") && negb shiftKey && negb (isLoading snap)
  then handleSend snap
  else Ret tt.

(** *** The controls of the rendered page

    The expressions of the JSX that decide what the user can do and
    see, as functions of the state of the render. *)

(** [onClick={() => !isLoading && handleConversationClick(conversation.id)}]
    on an item of the sidebar. *)
Definition onConversationClick (snap : State) (conversationId : Z)
  : Async State unit :=
  if negb (isLoading snap)
  then handleConversationClick snap conversationId
  else Ret tt.

(** [onChange={(e) => setInput(e.target.value)}] on the textarea. *)
Definition onChange (value : jsstring) : Async State unit :=
  set (setInput value).

(** [onClick={() => setError('')}] on the cross of the error banner. *)
Definition onDismissError : Async State unit :=
  set (setError []).

(** [disabled={isLoading}] on the New Chat button and on the textarea. *)
Definition newChatDisabled (snap : State) : bool := isLoading snap.

Definition textareaDisabled (snap : State) : bool := isLoading snap.

(** [disabled={!input.trim() || isLoading}] on the Send button. *)
Definition sendDisabled (snap : State) : bool :=
  negb (truthy (trim (input snap))) || isLoading snap.

(** [currentConversation?.id === conversation.id]: the item of the
    sidebar is highlighted. *)
Definition highlighted (snap : State) (conversation : Conversation.t) : bool :=
  match currentConversation snap with
  | Some c => Conversation.id c =? Conversation.id conversation
  | None => false
  end.

(** [{error && ...}]: the error banner is rendered. *)
Definition showsError (snap : State) : bool := truthy (error snap).

(** [{isLoading && ...}]: the bouncing dots are rendered. *)
Definition showsLoading (snap : State) : bool := isLoading snap.

(** [{messages.length === 0 && !isLoading && ...}]: the welcome text is
    rendered. *)
Definition showsWelcome (snap : State) : bool :=
  (List.length (messages snap) =? 0)%nat && negb (isLoading snap).

End VariantA.

(** ** Second variant: optimistic insertion, errors shown in the thread *)

Module VariantB.

Record State := mkState
  { messages : list Message.t;
    input : jsstring;
    conversations : list Conversation.t;
    currentConversation : option Conversation.t;
    isLoading : bool }.

Definition setMessages (v : list Message.t) (s : State) : State :=
  mkState v (input s) (conversations s) (currentConversation s) (isLoading s).

(** [setMessages((prev) => f prev)] *)
Definition setMessagesWith (f : list Message.t -> list Message.t) (s : State) : State :=
  mkState (f (messages s)) (input s) (conversations s) (currentConversation s)
    (isLoading s).

Definition setInput (v : jsstring) (s : State) : State :=
  mkState (messages s) v (conversations s) (currentConversation s) (isLoading s).

Definition setConversations (v : list Conversation.t) (s : State) : State :=
  mkState (messages s) (input s) v (currentConversation s) (isLoading s).

Definition setCurrentConversation (v : option Conversation.t) (s : State) : State :=
  mkState (messages s) (input s) (conversations s) v (isLoading s).

Definition setIsLoading (v : bool) (s : State) : State :=
  mkState (messages s) (input s) (conversations s) (currentConversation s) v.

Definition initial : State := mkState [] [] [] None false.

Definition fetchConversations : Async State unit :=
  Api.fetchConversations setConversations.

(** [useEffect(() => { fetchConversations(); }, [])] *)
Definition onMount : Async State unit := Fork fetchConversations (Ret tt).

Definition handleConversationClick (snap : State) (conversationId : Z)
  : Async State unit :=
  try_catch
    (set (setCurrentConversation
            (find (fun c => Conversation.id c =? conversationId) (conversations snap))) ;;
     response <- fetch (GET_messages conversationId) ;;
     messagesData <- json response ;;
     set (setMessages messagesData))
    (fun _ => Ret tt).

Definition handleNewChat : Async State unit :=
  set (setCurrentConversation None) ;;
  set (setMessages []) ;;
  set (setInput []).

Definition handleSend (snap : State) : Async State unit :=
  if negb (truthy (trim (input snap))) || isLoading snap then Ret tt else
  let userInput := input snap in
  set (setInput []) ;;
  set (setIsLoading true) ;;
  ReadClock Date_now (fun now =>
  ReadClock Date_toISOString (fun iso =>
  let tempUserMessage :=
    Message.mk now user userInput (id_or (currentConversation snap) 0) iso in
  set (setMessagesWith (fun prev => prev ++ [tempUserMessage])) ;;
  finally
    (try_catch
       (conversationId <-
          match currentConversation snap with
          | Some c => Ret (Conversation.id c)
          | None =>
              let title := lit "Conversation" in
              newConversation <- createConversation title ;;
              set (setCurrentConversation (Some newConversation)) ;;
              Fork fetchConversations (Ret (Conversation.id newConversation))
          end ;;
        aiResponse <- createMessage conversationId userInput ;;
        set (setMessagesWith (fun prev => prev ++ [aiResponse])))
       (fun error =>
          ReadClock Date_now (fun now' =>
          ReadClock Date_toISOString (fun iso' =>
          let errorMessage :=
            Message.mk (now' + 1) assistant
              (lit "Error: "
                 ++ or_else (message error) (lit "Could not get response from AI"))
              (id_or (currentConversation snap) 0) iso' in
          set (setMessagesWith (fun prev => prev ++ [errorMessage]))))))
    (set (setIsLoading false)))).

Definition handleKeyDown (snap : State) (key : jsstring) (shiftKey : bool)
  : Async State unit :=
  if str_eqb key (lit "Enter") && negb shiftKey && negb (isLoading snap)
  then handleSend snap
  else Ret tt.

(** *** The controls of the rendered page

    The expressions of the JSX that decide what the user can do and
    see, as functions of the state of the render. *)

(** [onClick={() => !isLoading && handleConversationClick(conversation.id)}]
    on an item of the sidebar. *)
Definition onConversationClick (snap : State) (conversationId : Z)
  : Async State unit :=
  if negb (isLoading snap)
  then handleConversationClick snap conversationId
  else Ret tt.

(** [onChange={(e) => setInput(e.target.value)}] on the textarea. *)
Definition onChange (value : jsstring) : Async State unit :=
  set (setInput value).

(** [disabled={isLoading}] on the New Chat button and on the textarea. *)
Definition newChatDisabled (snap : State) : bool := isLoading snap.

Definition textareaDisabled (snap : State) : bool := isLoading snap.

(** [disabled={!input.trim() || isLoading}] on the Send button. *)
Definition sendDisabled (snap : State) : bool :=
  negb (truthy (trim (input snap))) || isLoading snap.

(** [currentConversation?.id === conversation.id]: the item of the
    sidebar is highlighted. *)
Definition highlighted (snap : State) (conversation : Conversation.t) : bool :=
  match currentConversation snap with
  | Some c => Conversation.id c =? Conversation.id conversation
  | None => false
  end.

(** [{isLoading && ...}]: the bouncing dots are rendered. *)
Definition showsLoading (snap : State) : bool := isLoading snap.

(** [{messages.length === 0 && !isLoading && ...}]: the welcome text is
    rendered. *)
Definition showsWelcome (snap : State) : bool :=
  (List.length (messages snap) =? 0)%nat && negb (isLoading snap).

End VariantB.

(** * Observations of a run

    The definitions below name what the statements of the properties
    talk about: how the functions of the API client complete on a given
    response, the state changes of the handlers in closed form, and the
    result of a user action started in a quiescent world. *)

(** How [createConversation] completes on a settled request: the status
    is not looked at. *)
Definition created (x : FetchResult Conversation.t) : Outcome Conversation.t :=
  match x with
  | NetworkError msg => Threw (mkError msg)
  | Responded resp =>
      match body_json resp with
      | JsonOk c => Returned c
      | JsonSyntaxError msg => Threw (mkError msg)
      end
  end.

(** How [createMessage] completes on a settled request. *)
Definition sent (x : FetchResult Message.t) : Outcome Message.t :=
  match x with
  | NetworkError msg => Threw (mkError msg)
  | Responded resp =>
      if ok resp then
        match body_json resp with
        | JsonOk m => Returned m
        | JsonSyntaxError msg => Threw (mkError msg)
        end
      else
        Threw (mkError (lit "Failed to send message: " ++ of_number (status resp)
                          ++ lit " - " ++ body_text resp))
  end.

Arguments created x : simpl never.
Arguments sent x : simpl never.

(** ** The refresh of the list of conversations *)

Section Refresh.

Variable St : Type.
Variable env : Env.
Variable setConversations : list Conversation.t -> St -> St.

(** What [fetchConversations] does once its response is in. *)
Definition refresh_k (x : FetchResult (list Conversation.t)) : Async St unit :=
  try_catch
    (response <- match x with
                 | NetworkError msg => Throw (mkError msg)
                 | Responded resp => Ret resp
                 end ;;
     data <- json response ;;
     set (setConversations data))
    (fun _ => Ret tt).

(** The refresh numbered [n], pending. *)
Definition refresh (n : nat) : Pending St :=
  mkPending n GET_conversations unit refresh_k.

(** The effect of a settled refresh on the state: the list of
    conversations is replaced when the body parses, whatever the status. *)
Definition refreshed (x : FetchResult (list Conversation.t)) (s : St) : St :=
  match x with
  | NetworkError _ => s
  | Responded resp =>
      match body_json resp with
      | JsonOk data => setConversations data s
      | JsonSyntaxError _ => s
      end
  end.

(** The world once the pending refresh numbered [n] has settled. *)
Definition refresh_settled (n : nat) (w : World St) : World St :=
  with_state (refreshed (respond env n GET_conversations))
    (response n GET_conversations (unpark 0 w)).

End Refresh.

Arguments refresh_k {St} setConversations x.
Arguments refresh {St} setConversations n.
Arguments refreshed {St} setConversations x s.
Arguments refresh_settled {St} env setConversations n w.

(** ** First variant *)

Module RunA.
Import VariantA.

Section WithEnv.

Variable env : Env.

(** How the fetch of [fetchMessages] completes inside its [try]. *)
Definition fetched (x : FetchResult (list Message.t)) : Outcome (list Message.t) :=
  match x with
  | NetworkError msg => Threw (mkError msg)
  | Responded resp =>
      if ok resp then
        match body_json resp with
        | JsonOk l => Returned l
        | JsonSyntaxError msg => Threw (mkError msg)
        end
      else
        Threw (mkError (lit "Failed to fetch messages: " ++ of_number (status resp)))
  end.

(** The state changes of [fetchMessages] after its request has settled. *)
Definition loaded (x : FetchResult (list Message.t)) (s : State) : State :=
  setIsLoading false
    match fetched x with
    | Returned l => setError [] (setMessages l s)
    | Threw _ => setError (lit "Failed to load messages") s
    end.

(** The setter calls of [handleSend] before its [try], at its normal exit
    and at its exit through [catch]. *)
Definition begin_send (userInput : jsstring) (s : State) : State :=
  setPendingUserInput userInput (setError [] (setIsLoading true (setInput [] s))).

Definition end_send (s : State) : State :=
  setPendingUserInput [] (setIsLoading false (setPendingUserInput [] s)).

Definition fail_send (userInput : jsstring) (e : Error) (s : State) : State :=
  setPendingUserInput []
    (setIsLoading false
       (setInput userInput
          (setError (lit "Failed to send message: "
                       ++ or_else (message e) (lit "Please try again")) s))).

(** [handleSend] from the call of [createMessage] on. *)
Definition send_to (userInput : jsstring) (conversationId : Z) (w : World State)
  : World State :=
  let w1 := awaited env (POST_messages conversationId userInput) w in
  match sent (respond env (w_seq w) (POST_messages conversationId userInput)) with
  | Returned _ =>
      with_state end_send
        (with_state (loaded (respond env (w_seq w1) (GET_messages conversationId)))
           (awaited env (GET_messages conversationId)
              (with_state (setIsLoading true) w1)))
  | Threw e => with_state (fail_send userInput e) w1
  end.

(** The guard of [handleSend] lets the call through. *)
Definition sendable (s : State) : Prop :=
  truthy (trim (input s)) = true /\ isLoading s = false.

Definition send (s : State) : Outcome unit * World State :=
  run env (handleSend s) (init_world s).

Definition after_send (s : State) : State := w_state (snd (send s)).

Definition send_log (s : State) : list (Event State) := w_log (snd (send s)).

(** The title [handleSend] gives to the conversation it creates. *)
Definition new_title (s : State) : jsstring := substring 0 50 (input s).

(** The conversation the message goes to: the selected one, or the one
    the first request creates. *)
Definition target (s : State) : Outcome Conversation.t :=
  match currentConversation s with
  | Some c => Returned c
  | None => created (respond env 0 (POST_conversations (new_title s)))
  end.

(** The number of the request that sends the message: creating a
    conversation takes request 0 and the refresh of the list request 1. *)
Definition post_no (s : State) : nat :=
  match currentConversation s with Some _ => 0%nat | None => 2%nat end.

(** How [createMessage] and the refetch complete in a send to [c]. *)
Definition reply (s : State) (c : Conversation.t) : Outcome Message.t :=
  sent (respond env (post_no s) (POST_messages (Conversation.id c) (input s))).

Definition refetch (s : State) (c : Conversation.t) : Outcome (list Message.t) :=
  fetched (respond env (S (post_no s)) (GET_messages (Conversation.id c))).

(** The requests of a send with their numbers, in the order they leave:
    create conversation and refresh of the list when no conversation is
    selected, then send message, then refetch when the message was
    accepted. *)
Definition send_requests (s : State) : list (nat * Request) :=
  let post c :=
    (post_no s, POST_messages (Conversation.id c) (input s))
      :: match reply s c with
         | Returned _ => [(S (post_no s), GET_messages (Conversation.id c))]
         | Threw _ => []
         end in
  match currentConversation s with
  | Some c => post c
  | None =>
      (0%nat, POST_conversations (new_title s))
        :: match target s with
           | Returned c => (1%nat, GET_conversations) :: post c
           | Threw _ => []
           end
  end.

Definition select (s : State) (conversationId : Z) : Outcome unit * World State :=
  run env (handleConversationClick s conversationId) (init_world s).

Definition after_select (s : State) (conversationId : Z) : State :=
  w_state (snd (select s conversationId)).

(** The state after [fetchMessages] alone, from a quiescent world. *)
Definition after_fetchMessages (s : State) (conversationId : Z) : State :=
  w_state (snd (run env (fetchMessages conversationId) (init_world s))).

(** Every control is disabled or does nothing. *)
Definition locked (st : State) : Prop :=
  sendDisabled st = true /\
  newChatDisabled st = true /\
  textareaDisabled st = true /\
  (forall (env' : Env) (w : World State),
      run env' (handleSend st) w = (Returned tt, w)) /\
  (forall (env' : Env) (key : jsstring) (shiftKey : bool) (w : World State),
      run env' (handleKeyDown st key shiftKey) w = (Returned tt, w)) /\
  (forall (env' : Env) (id : Z) (w : World State),
      run env' (onConversationClick st id) w = (Returned tt, w)).

End WithEnv.
End RunA.

(** ** Second variant *)

Module RunB.
Import VariantB.

Section WithEnv.

Variable env : Env.

(** The guard of [handleSend] lets the call through. *)
Definition sendable (s : State) : Prop :=
  truthy (trim (input s)) = true /\ isLoading s = false.

(** The two messages [handleSend] builds itself, from the state of the
    render and two clock reads each. *)
Definition tempUserMessage (s : State) (t : nat) : Message.t :=
  Message.mk (clock env t Date_now) user (input s)
    (id_or (currentConversation s) 0) (clock env (S t) Date_toISOString).

Definition errorMessage (s : State) (t : nat) (e : Error) : Message.t :=
  Message.mk (clock env t Date_now + 1) assistant
    (lit "Error: " ++ or_else (message e) (lit "Could not get response from AI"))
    (id_or (currentConversation s) 0) (clock env (S t) Date_toISOString).

(** [setMessages((prev) => [...prev, m])] *)
Definition push (m : Message.t) : State -> State :=
  setMessagesWith (fun prev => prev ++ [m]).

(** The world after the statements of [handleSend] before its [try]. *)
Definition begin_send (s : State) (w : World State) : World State :=
  with_state (push (tempUserMessage s (w_ticks w)))
    (tick (tick (with_state (setIsLoading true) (with_state (setInput []) w)))).

(** The world after its [catch] and [finally]. *)
Definition fail_send (s : State) (e : Error) (w : World State) : World State :=
  with_state (setIsLoading false)
    (with_state (push (errorMessage s (w_ticks w) e)) (tick (tick w))).

(** [handleSend] from the call of [createMessage] on. *)
Definition send_to (s : State) (conversationId : Z) (w : World State)
  : World State :=
  let w1 := awaited env (POST_messages conversationId (input s)) w in
  match sent (respond env (w_seq w) (POST_messages conversationId (input s))) with
  | Returned aiResponse =>
      with_state (setIsLoading false) (with_state (push aiResponse) w1)
  | Threw e => fail_send s e w1
  end.

Definition send (s : State) : Outcome unit * World State :=
  run env (handleSend s) (init_world s).

Definition after_send (s : State) : State := w_state (snd (send s)).

Definition send_log (s : State) : list (Event State) := w_log (snd (send s)).

(** The title [handleSend] gives to the conversation it creates. *)
Definition new_title : jsstring := lit "Conversation".

(** The conversation the message goes to: the selected one, or the one
    the first request creates. *)
Definition target (s : State) : Outcome Conversation.t :=
  match currentConversation s with
  | Some c => Returned c
  | None => created (respond env 0 (POST_conversations new_title))
  end.

(** The number of the request that sends the message: creating a
    conversation takes request 0 and the refresh of the list request 1. *)
Definition post_no (s : State) : nat :=
  match currentConversation s with Some _ => 0%nat | None => 2%nat end.

(** How [createMessage] completes in a send to [c]. *)
Definition reply (s : State) (c : Conversation.t) : Outcome Message.t :=
  sent (respond env (post_no s) (POST_messages (Conversation.id c) (input s))).

(** The requests of a send with their numbers, in the order they leave:
    create conversation and refresh of the list when no conversation is
    selected, then send message. *)
Definition send_requests (s : State) : list (nat * Request) :=
  match currentConversation s with
  | Some c => [(0%nat, POST_messages (Conversation.id c) (input s))]
  | None =>
      (0%nat, POST_conversations new_title)
        :: match target s with
           | Returned c =>
               [(1%nat, GET_conversations);
                (2%nat, POST_messages (Conversation.id c) (input s))]
           | Threw _ => []
           end
  end.

(** What the response does to the thread: the status is not looked at. *)
Definition loaded (x : FetchResult (list Message.t)) (s : State) : State :=
  match x with
  | NetworkError _ => s
  | Responded resp =>
      match body_json resp with
      | JsonOk messagesData => setMessages messagesData s
      | JsonSyntaxError _ => s
      end
  end.

Definition select (s : State) (conversationId : Z) : Outcome unit * World State :=
  run env (handleConversationClick s conversationId) (init_world s).

Definition after_select (s : State) (conversationId : Z) : State :=
  w_state (snd (select s conversationId)).

(** [handleConversationClick] never sets [isLoading], so the page stays
    usable while its request is outstanding.  Here the click has run up
    to its [await], the page has rendered again, and the user sends from
    that render: the send starts with the request of the click pending. *)
Definition clicked (s : State) (conversationId : Z) : World State :=
  advance env (handleConversationClick s conversationId) (init_world s).

Definition send_during_select (s : State) (conversationId : Z)
  : Outcome unit * World State :=
  run env (handleSend (w_state (clicked s conversationId)))
    (clicked s conversationId).

(** Every control is disabled or does nothing. *)
Definition locked (st : State) : Prop :=
  sendDisabled st = true /\
  newChatDisabled st = true /\
  textareaDisabled st = true /\
  (forall (env' : Env) (w : World State),
      run env' (handleSend st) w = (Returned tt, w)) /\
  (forall (env' : Env) (key : jsstring) (shiftKey : bool) (w : World State),
      run env' (handleKeyDown st key shiftKey) w = (Returned tt, w)) /\
  (forall (env' : Env) (id : Z) (w : World State),
      run env' (onConversationClick st id) w = (Returned tt, w)).

End WithEnv.
End RunB.

(** ** Predicates on responses and messages *)

(** The parsed body of a response, if there is one; the status is not
    looked at. *)
Definition parsed {T} (x : FetchResult T) : option T :=
  match x with
  | NetworkError _ => None
  | Responded resp =>
      match body_json resp with
      | JsonOk v => Some v
      | JsonSyntaxError _ => None
      end
  end.

(** A message belongs to an existing conversation ([known] holds of its
    [conversation_id]) and has one of the two roles. *)
Definition belongs (known : Z -> Prop) (m : Message.t) : Prop :=
  known (Message.conversation_id m) /\
  (Message.role m = user \/ Message.role m = assistant).

(** A message built while no conversation was selected. *)
Definition placeholder (m : Message.t) : Prop :=
  Message.conversation_id m = 0 /\
  (Message.role m = user \/ Message.role m = assistant).

(** The messages in the parsed body of a response to [r]. *)
Definition body_messages (r : Request) : resp_type r -> list Message.t :=
  match r with
  | GET_messages _ => fun l => l
  | POST_messages _ _ => fun m => [m]
  | GET_conversations => fun _ => []
  | POST_conversations _ => fun _ => []
  end.

(** Every message the backend returns belongs to an existing
    conversation. *)
Definition honest (known : Z -> Prop) (env : Env) : Prop :=
  forall (n : nat) (r : Request) (resp : Response (resp_type r)) (v : resp_type r),
    respond env n r = Responded resp ->
    body_json resp = JsonOk v ->
    Forall (belongs known) (body_messages r v).

(** The backend answers with a successful status and a body that parses
    to [v]. *)
Definition answered {T} (x : FetchResult T) (v : T) : Prop :=
  exists resp, x = Responded resp /\ ok resp = true /\ body_json resp = JsonOk v.

(** The request fails at the network level or its body does not parse. *)
Definition unreadable {T} (x : FetchResult T) : Prop :=
  match x with
  | NetworkError _ => True
  | Responded resp => exists msg, body_json resp = JsonSyntaxError msg
  end.

(** The backend answers with a status outside 200-299. *)
Definition unsuccessful {T} (x : FetchResult T) : Prop :=
  match x with
  | NetworkError _ => False
  | Responded resp => ok resp = false
  end.

(** The sequence of messages in a response, if there is one. *)
Definition returned_messages (x : FetchResult (list Message.t))
  : option (list Message.t) :=
  match x with
  | NetworkError _ => None
  | Responded resp =>
      match body_json resp with
      | JsonOk l => Some l
      | JsonSyntaxError _ => None
      end
  end.

Definition Message_eq_dec (a b : Message.t) : {a = b} + {a <> b}.
Proof.
  decide equality;
    first [apply Z.eq_dec | apply (list_eq_dec N.eq_dec) | decide equality].
Defined.

(** ** Concrete backends and states *)

Module Sample.

Definition stamp : jsstring := lit "2024-05-01T10:00:00.000Z".

Definition hi : jsstring := lit "hi".

Definition c1 : Conversation.t := Conversation.mk 1 (lit "Conversation") stamp.

Definition m_user : Message.t := Message.mk 1 user hi 1 stamp.

Definition m_ai : Message.t := Message.mk 2 assistant (lit "hello") 1 stamp.

Definition m_sent : Message.t := Message.mk 3 user hi 1 stamp.

Definition m_reply : Message.t := Message.mk 4 assistant (lit "hello again") 1 stamp.

Definition reads (n : nat) (c : Clock) : clock_type c :=
  match c with
  | Date_now => 1714557600000
  | Date_toISOString => stamp
  end.

Definition good {T} (v : T) : FetchResult T :=
  Responded (mkResponse 200 [] (JsonOk v)).

Definition server_error {T} : Response T :=
  mkResponse 500 (lit "boom") (JsonSyntaxError (lit "Unexpected token")).

Definition bad {T} : FetchResult T := Responded server_error.

(** Every request succeeds; the refresh of the list settles as soon as
    the handler awaits again. *)
Definition backend_up : Env :=
  mkEnv
    (fun _ r =>
       match r with
       | GET_conversations => good [c1]
       | GET_messages _ => good [m_user; m_ai; m_sent; m_reply]
       | POST_conversations _ => good c1
       | POST_messages _ _ => good m_reply
       end)
    reads
    (fun _ => [0%nat]).

(** Sending a message is answered with status 500. *)
Definition backend_rejects_message : Env :=
  mkEnv
    (fun _ r =>
       match r with
       | GET_conversations => good [c1]
       | GET_messages _ => good [m_user; m_ai; m_sent; m_reply]
       | POST_conversations _ => good c1
       | POST_messages _ _ => bad
       end)
    reads
    (fun _ => [0%nat]).

(** Fetching the messages is answered with status 500. *)
Definition backend_rejects_fetch : Env :=
  mkEnv
    (fun _ r =>
       match r with
       | GET_conversations => good [c1]
       | GET_messages _ => bad
       | POST_conversations _ => good c1
       | POST_messages _ _ => good m_reply
       end)
    reads
    (fun _ => [0%nat]).

(** The network is down when the messages are fetched. *)
Definition backend_unreachable : Env :=
  mkEnv
    (fun _ r =>
       match r with
       | GET_conversations => good [c1]
       | GET_messages _ => NetworkError (lit "Failed to fetch")
       | POST_conversations _ => good c1
       | POST_messages _ _ => good m_reply
       end)
    reads
    (fun _ => [0%nat]).

(** The network is down when the conversation is created. *)
Definition backend_cannot_create : Env :=
  mkEnv
    (fun _ r =>
       match r with
       | GET_conversations => good [c1]
       | GET_messages _ => good [m_user; m_ai; m_sent; m_reply]
       | POST_conversations _ => NetworkError (lit "Failed to fetch")
       | POST_messages _ _ => good m_reply
       end)
    reads
    (fun _ => [0%nat]).

(** Every request succeeds and the thread of the conversation is still
    the one of [m_user] and [m_ai] when it is fetched. *)
Definition backend_short_thread : Env :=
  mkEnv
    (fun _ r =>
       match r with
       | GET_conversations => good [c1]
       | GET_messages _ => good [m_user; m_ai]
       | POST_conversations _ => good c1
       | POST_messages _ _ => good m_reply
       end)
    reads
    (fun _ => [0%nat]).

(** [hi] typed, no conversation selected. *)
Definition fresh_A : VariantA.State := VariantA.setInput hi VariantA.initial.
Definition fresh_B : VariantB.State := VariantB.setInput hi VariantB.initial.

(** [hi] typed in the selected conversation [c1], whose thread is shown. *)
Definition open_A : VariantA.State :=
  VariantA.mkState [m_user; m_ai] hi [c1] (Some c1) false [] [].
Definition open_B : VariantB.State :=
  VariantB.mkState [m_user; m_ai] hi [c1] (Some c1) false.

End Sample.

(** * Properties *)

(** ** JavaScript strings *)

Lemma trimStart_white_space (s : jsstring) :
  forallb is_white_space s = true -> trimStart s = [].
Proof.
  induction s as [|c s IH]; simpl; [reflexivity|].
  intros H. apply andb_true_iff in H as [Hc Hs].
  rewrite Hc. exact (IH Hs).
Qed.

Lemma trim_white_space (s : jsstring) :
  forallb is_white_space s = true -> trim s = [].
Proof.
  intros H. unfold trim, trimEnd.
  rewrite (trimStart_white_space s H). reflexivity.
Qed.

Lemma substring_prefix (n : nat) (s : jsstring) :
  substring 0 n s = firstn n s.
Proof.
  unfold substring. simpl.
  rewrite Nat.sub_0_r.
  destruct (Nat.le_gt_cases n (List.length s)) as [Hle|Hgt].
  - rewrite Nat.min_l by exact Hle. reflexivity.
  - rewrite Nat.min_r by lia.
    rewrite firstn_all. symmetry. apply firstn_all2. lia.
Qed.

(** ** The scheduler *)

Section Scheduler.

Variable St : Type.
Variable env : Env.

(** *** Sequencing, [catch] and [finally] under [run] *)

Lemma run_bind {A : Type} (p : Async St A) :
  forall (B : Type) (f : A -> Async St B) (w : World St),
    run env (bind p f) w
    = match run env p w with
      | (Returned a, w') => run env (f a) w'
      | (Threw e, w') => (Threw e, w')
      end.
Proof.
  induction p as [A a|A e|A g k IH|A c k IH|A r k IH|A q _ k IH];
    intros B f w; simpl; auto.
Qed.

Lemma run_try_catch {A : Type} (p : Async St A) :
  forall (h : Error -> Async St A) (w : World St),
    run env (try_catch p h) w
    = match run env p w with
      | (Returned a, w') => (Returned a, w')
      | (Threw e, w') => run env (h e) w'
      end.
Proof.
  induction p as [A a|A e|A g k IH|A c k IH|A r k IH|A q _ k IH];
    intros h w; simpl; auto.
Qed.

Lemma run_finally {A : Type} (p : Async St A) :
  forall (fin : Async St unit) (w : World St),
    run env (finally p fin) w
    = match run env p w with
      | (Returned a, w') => run env (fin ;; Ret a) w'
      | (Threw e, w') => run env (fin ;; Throw e) w'
      end.
Proof.
  induction p as [A a|A e|A g k IH|A c k IH|A r k IH|A q _ k IH];
    intros fin w; simpl; auto.
Qed.

Lemma run_set (f : St -> St) (w : World St) :
  run env (set f) w = (Returned tt, with_state f w).
Proof. reflexivity. Qed.

(** *** The API client under [run] *)

Lemma run_createConversation (title : jsstring) (w : World St) :
  run env (createConversation title) w
  = (created (respond env (w_seq w) (POST_conversations title)),
     awaited env (POST_conversations title) w).
Proof.
  unfold createConversation, fetch, json, created. simpl.
  destruct (respond env (w_seq w) (POST_conversations title))
    as [msg|[st tx [c|msg]]]; reflexivity.
Qed.

Lemma run_createMessage (conversationId : Z) (content : jsstring) (w : World St) :
  run env (createMessage conversationId content) w
  = (sent (respond env (w_seq w) (POST_messages conversationId content)),
     awaited env (POST_messages conversationId content) w).
Proof.
  unfold createMessage, fetch, json, text, sent. simpl.
  destruct (respond env (w_seq w) (POST_messages conversationId content))
    as [msg|[st tx [m|msg]]]; simpl; [reflexivity| |];
    unfold ok; simpl; destruct ((200 <=? st) && (st <=? 299)); reflexivity.
Qed.

(** *** Background requests *)

Lemma deliver_nil (w : World St) (i : nat) :
  w_pool w = [] -> deliver env w i = w.
Proof.
  intros H. unfold deliver. rewrite H. destruct i; reflexivity.
Qed.

(** With nothing pending in the background, nothing can arrive. *)
Lemma settle_nil (l : list nat) (w : World St) :
  w_pool w = [] -> settle env l w = w.
Proof.
  unfold settle. induction l as [|i l IH]; simpl; intros H; [reflexivity|].
  rewrite (deliver_nil w i H). exact (IH H).
Qed.

Lemma awaited_nil (r : Request) (w : World St) :
  w_pool w = [] ->
  awaited env r w = response (w_seq w) r (request r w).
Proof.
  intros H. unfold awaited. rewrite settle_nil; [reflexivity|exact H].
Qed.

Variable setConversations : list Conversation.t -> St -> St.

Lemma advance_fetchConversations (w : World St) :
  advance env (fetchConversations setConversations) w
  = request GET_conversations (park (refresh setConversations (w_seq w)) w).
Proof. reflexivity. Qed.

Lemma advance_refresh_k (x : FetchResult (list Conversation.t)) (w : World St) :
  advance env (refresh_k setConversations x) w
  = with_state (refreshed setConversations x) w.
Proof.
  unfold refresh_k, refreshed, json, with_state.
  destruct w as [s pool n t log].
  destruct x as [msg|[st tx [data|msg]]]; reflexivity.
Qed.

(** While the handler awaits with one refresh pending, either the
    refresh stays pending or it settles; nothing else can happen. *)
Lemma settle_refresh (l : list nat) (w : World St) (n : nat) :
  w_pool w = [refresh setConversations n] ->
  settle env l w = w \/
  settle env l w = refresh_settled env setConversations n w.
Proof.
  unfold settle. revert w.
  induction l as [|i l IH]; simpl; intros w H; [left; reflexivity|].
  destruct i as [|i].
  - right. unfold deliver. rewrite H. simpl.
    rewrite advance_refresh_k.
    apply (settle_nil l). simpl. rewrite H. reflexivity.
  - assert (E : deliver env w (S i) = w).
    { unfold deliver. rewrite H. simpl. destruct i; reflexivity. }
    rewrite E. exact (IH w H).
Qed.

Lemma awaited_refresh (r : Request) (w : World St) (n : nat) :
  w_pool w = [refresh setConversations n] ->
  awaited env r w = response (w_seq w) r (request r w) \/
  awaited env r w
  = response (w_seq w) r (refresh_settled env setConversations n (request r w)).
Proof.
  intros H. unfold awaited.
  destruct (settle_refresh (deliveries env (w_seq w)) (request r w) n H) as [E|E];
    rewrite E; [left|right]; reflexivity.
Qed.

Lemma with_state_world (f : St -> St) (s : St) (pool : list (Pending St))
      (n t : nat) (log : list (Event St)) :
  with_state f (mkWorld s pool n t log) = mkWorld (f s) pool n t log.
Proof. reflexivity. Qed.

Lemma tick_world (s : St) (pool : list (Pending St)) (n t : nat)
      (log : list (Event St)) :
  tick (mkWorld s pool n t log) = mkWorld s pool n (S t) log.
Proof. reflexivity. Qed.

(** The same two facts on explicit worlds. *)
Lemma awaited_quiet (r : Request) (s : St) (n t : nat) (log : list (Event St)) :
  awaited env r (mkWorld s [] n t log)
  = mkWorld s [] (S n) t (log ++ [EvRequest n r s; EvResponse n r]).
Proof.
  rewrite awaited_nil by reflexivity.
  unfold response, request. simpl. rewrite <- app_assoc. reflexivity.
Qed.

Lemma awaited_one (r : Request) (s : St) (m n t : nat) (log : list (Event St)) :
  awaited env r (mkWorld s [refresh setConversations m] n t log)
  = mkWorld s [refresh setConversations m] (S n) t
      (log ++ [EvRequest n r s; EvResponse n r]) \/
  awaited env r (mkWorld s [refresh setConversations m] n t log)
  = mkWorld (refreshed setConversations (respond env m GET_conversations) s) []
      (S n) t
      (log ++ [EvRequest n r s; EvResponse m GET_conversations; EvResponse n r]).
Proof.
  destruct (awaited_refresh r (mkWorld s [refresh setConversations m] n t log)
              m eq_refl) as [E|E];
    rewrite E; [left|right];
    unfold response, request, refresh_settled, with_state, unpark; simpl;
    rewrite <- !app_assoc; reflexivity.
Qed.

Lemma advance_fetchConversations_world (s : St) (pool : list (Pending St))
      (n t : nat) (log : list (Event St)) :
  advance env (fetchConversations setConversations) (mkWorld s pool n t log)
  = mkWorld s (pool ++ [refresh setConversations n]) (S n) t
      (log ++ [EvRequest n GET_conversations s]).
Proof. reflexivity. Qed.

End Scheduler.

Arguments settle : simpl never.
Arguments awaited : simpl never.

Opaque awaited createMessage createConversation fetchConversations.

(** ** Proof automation

    [await_cases] brings the world of a run to an explicit record,
    splitting on whether the pending refresh has settled at each
    [await]; [refresh_cases] splits on how it settled. *)

Ltac await_cases :=
  unfold init_world; simpl;
  repeat (first
    [ rewrite with_state_world
    | rewrite tick_world
    | rewrite awaited_quiet
    | rewrite advance_fetchConversations_world
    | match goal with
      | |- context [awaited ?env ?r (mkWorld ?s [refresh ?setC ?m] ?n ?t ?log)] =>
          let E := fresh "E" in
          destruct (awaited_one _ env setC r s m n t log) as [E|E];
          rewrite E; clear E
      end ]; simpl).

Ltac refresh_cases :=
  repeat match goal with
  | |- context [refreshed _ ?x _] => destruct x as [?|[? ? [?|?]]]; simpl
  end.

(** ** First variant *)

Module FactsA.
Import VariantA RunA.

Section WithEnv.

Variable env : Env.

(** [fetchMessages] never throws: its [catch] absorbs every failure. *)
Lemma run_fetchMessages (conversationId : Z) (w : World State) :
  run env (fetchMessages conversationId) w
  = (Returned tt,
     with_state (loaded (respond env (w_seq w) (GET_messages conversationId)))
       (awaited env (GET_messages conversationId) (with_state (setIsLoading true) w))).
Proof.
  unfold fetchMessages, loaded, fetched, fetch, json. simpl.
  destruct (respond env (w_seq w) (GET_messages conversationId))
    as [msg|[st tx [l|msg]]]; simpl; [reflexivity| |];
    unfold ok; simpl; destruct ((200 <=? st) && (st <=? 299)); reflexivity.
Qed.

Opaque fetchMessages.

Lemma handleSend_selected_A (s : State) (c : Conversation.t) (w : World State) :
  sendable s -> currentConversation s = Some c ->
  run env (handleSend s) w
  = (Returned tt,
     send_to env (input s) (Conversation.id c) (with_state (begin_send (input s)) w)).
Proof.
  intros [Hin Hl] Hc. unfold handleSend. rewrite Hin, Hl, Hc. simpl.
  rewrite run_finally, run_try_catch, run_bind, run_createMessage.
  unfold send_to. fold (begin_send (input s)).
  change (with_state (setPendingUserInput (input s))
            (with_state (setError [])
               (with_state (setIsLoading true) (with_state (setInput []) w))))
    with (with_state (begin_send (input s)) w).
  set (w0 := with_state (begin_send (input s)) w).
  destruct (sent (respond env (w_seq w0)
                    (POST_messages (Conversation.id c) (input s)))) as [m|e].
  - rewrite run_bind, run_fetchMessages. reflexivity.
  - reflexivity.
Qed.

Lemma handleSend_fresh_A (s : State) (w : World State) :
  sendable s -> currentConversation s = None ->
  run env (handleSend s) w
  = (Returned tt,
     let title := substring 0 50 (input s) in
     let w1 := awaited env (POST_conversations title)
                 (with_state (begin_send (input s)) w) in
     match created (respond env (w_seq w) (POST_conversations title)) with
     | Returned newConversation =>
         send_to env (input s) (Conversation.id newConversation)
           (advance env fetchConversations
              (with_state (setCurrentConversation (Some newConversation)) w1))
     | Threw e => with_state (fail_send (input s) e) w1
     end).
Proof.
  intros [Hin Hl] Hc. unfold handleSend. rewrite Hin, Hl, Hc. simpl.
  change (with_state (setPendingUserInput (input s))
            (with_state (setError [])
               (with_state (setIsLoading true) (with_state (setInput []) w))))
    with (with_state (begin_send (input s)) w).
  rewrite run_finally, run_try_catch, run_bind, run_bind, run_createConversation.
  simpl w_seq.
  destruct (created (respond env (w_seq w)
                       (POST_conversations (substring 0 50 (input s))))) as [nc|e].
  - simpl. rewrite run_bind, run_createMessage. unfold send_to.
    match goal with
    | |- context [sent ?x] => destruct (sent x) as [m|e]
    end.
    + rewrite run_bind, run_fetchMessages. reflexivity.
    + reflexivity.
  - reflexivity.
Qed.

(** *** A send from a quiescent world *)

Ltac open_send s Hs :=
  unfold after_send, send_log, send, target, reply, refetch, post_no, new_title in *;
  let c := fresh "c0" in
  let Hc := fresh "Hc" in
  destruct (currentConversation s) as [c|] eqn:Hc;
  [ rewrite (handleSend_selected_A s c _ Hs Hc)
  | rewrite (handleSend_fresh_A s _ Hs Hc) ];
  unfold send_to, fetchConversations, loaded; await_cases.

Ltac outcome_cases :=
  repeat (match goal with
          | |- context [sent ?x] => destruct (sent x)
          | |- context [created ?x] => destruct (created x)
          | |- context [fetched ?x] => destruct (fetched x)
          end; await_cases).

(** [handleSend] catches everything. *)
Lemma send_returns_A (s : State) (w : World State) :
  fst (run env (handleSend s) w) = Returned tt.
Proof.
  destruct (truthy (trim (input s))) eqn:Hin;
    [destruct (isLoading s) eqn:Hl|];
    try (unfold handleSend; rewrite Hin; try rewrite Hl; reflexivity).
  destruct (currentConversation s) as [c|] eqn:Hc.
  - rewrite (handleSend_selected_A s c w (conj Hin Hl) Hc). reflexivity.
  - rewrite (handleSend_fresh_A s w (conj Hin Hl) Hc). reflexivity.
Qed.

Lemma failed_send_A (s : State) (c : Conversation.t) (e : Error) :
  sendable s -> target env s = Returned c -> reply env s c = Threw e ->
  input (after_send env s) = input s /\ currentConversation (after_send env s) = Some c.
Proof.
  intros Hs Ht Hr. open_send s Hs.
  - injection Ht as ->. rewrite Hr. simpl. auto.
  - rewrite Ht. await_cases; rewrite Hr; simpl; refresh_cases; auto.
Qed.

Lemma sent_and_refetched (s : State) (c : Conversation.t) (ai : Message.t) :
  sendable s -> target env s = Returned c -> reply env s c = Returned ai ->
  messages (after_send env s)
  = match refetch env s c with
    | Returned l => l
    | Threw _ => messages s
    end.
Proof.
  intros Hs Ht Hr. open_send s Hs.
  - injection Ht as ->. rewrite Hr. await_cases.
    destruct (fetched _); reflexivity.
  - rewrite Ht. await_cases; rewrite Hr; await_cases;
      destruct (fetched _); simpl; refresh_cases; reflexivity.
Qed.

Lemma send_loading_A (s : State) :
  sendable s ->
  Forall (fun st => isLoading st = true) (snapshots (send_log env s)) /\
  snapshots (send_log env s) <> [] /\
  isLoading (after_send env s) = false.
Proof.
  intros Hs. open_send s Hs; outcome_cases; simpl; refresh_cases;
    (split; [repeat constructor|split; [discriminate|reflexivity]]).
Qed.

Lemma send_outstanding_A (s : State) :
  sendable s ->
  (max_outstanding 0 (own_requests (send_log env s)) <= 1)%nat /\
  (max_outstanding 0 (send_log env s) <= 2)%nat /\
  (currentConversation s <> None -> (max_outstanding 0 (send_log env s) <= 1)%nat).
Proof.
  intros Hs. open_send s Hs; outcome_cases; simpl;
    (split; [lia|split; [lia|]]); intros H; try lia; contradiction.
Qed.

Lemma send_numbered_A (s : State) :
  sendable s -> numbered (send_log env s) = send_requests env s.
Proof.
  intros Hs. unfold send_requests. open_send s Hs; outcome_cases; reflexivity.
Qed.

Lemma send_title_A (s : State) :
  sendable s -> currentConversation s = None ->
  hd_error (requests (send_log env s)) = Some (POST_conversations (firstn 50 (input s))).
Proof.
  intros Hs Hn. rewrite <- substring_prefix.
  open_send s Hs; [discriminate|]. outcome_cases; reflexivity.
Qed.

Lemma send_blank_A (s : State) (w : World State) :
  forallb is_white_space (input s) = true ->
  run env (handleSend s) w = (Returned tt, w) /\
  forall key shiftKey, run env (handleKeyDown s key shiftKey) w = (Returned tt, w).
Proof.
  intros H.
  assert (E : run env (handleSend s) w = (Returned tt, w)).
  { unfold handleSend. rewrite (trim_white_space _ H). reflexivity. }
  split; [exact E|]. intros key shiftKey. unfold handleKeyDown.
  destruct (str_eqb key (lit "Enter") && negb shiftKey && negb (isLoading s));
    [exact E|reflexivity].
Qed.

Lemma send_keeps (P : Message.t -> Prop) (s : State) :
  sendable s ->
  Forall P (messages s) ->
  (forall n id l, fetched (respond env n (GET_messages id)) = Returned l -> Forall P l) ->
  Forall P (messages (after_send env s)).
Proof.
  intros Hs H0 Hb. open_send s Hs;
    repeat (match goal with
            | |- context [sent ?x] => destruct (sent x)
            | |- context [created ?x] => destruct (created x)
            end; await_cases);
    repeat match goal with
           | |- context [fetched (respond env ?n (GET_messages ?id))] =>
               let E := fresh "E" in
               destruct (fetched (respond env n (GET_messages id))) eqn:E;
               [apply Hb in E|]
           end;
    simpl; refresh_cases; assumption.
Qed.

(** *** Selecting a conversation, starting a new chat *)

Lemma run_handleConversationClick_A (s : State) (conversationId : Z) (w : World State) :
  run env (handleConversationClick s conversationId) w
  = (Returned tt,
     with_state (loaded (respond env (w_seq w) (GET_messages conversationId)))
       (awaited env (GET_messages conversationId)
          (with_state (setIsLoading true)
             (with_state (setError [])
                (with_state
                   (setCurrentConversation
                      (find (fun c => Conversation.id c =? conversationId)
                         (conversations s))) w))))).
Proof.
  unfold handleConversationClick. simpl.
  rewrite run_try_catch, run_fetchMessages. reflexivity.
Qed.

Lemma select_messages (s : State) (conversationId : Z) :
  messages (after_select env s conversationId)
  = match fetched (respond env 0 (GET_messages conversationId)) with
    | Returned l => l
    | Threw _ => messages s
    end.
Proof.
  unfold after_select, select. rewrite run_handleConversationClick_A.
  unfold loaded. await_cases. destruct (fetched _); reflexivity.
Qed.

Lemma select_error (s : State) (conversationId : Z) :
  error (after_select env s conversationId)
  = match fetched (respond env 0 (GET_messages conversationId)) with
    | Returned _ => []
    | Threw _ => lit "Failed to load messages"
    end.
Proof.
  unfold after_select, select. rewrite run_handleConversationClick_A.
  unfold loaded. await_cases. destruct (fetched _); reflexivity.
Qed.

Lemma fetched_unsuccessful (resp : Response (list Message.t)) :
  ok resp = false ->
  fetched (Responded resp)
  = Threw (mkError (lit "Failed to fetch messages: " ++ of_number (status resp))).
Proof. intros H. unfold fetched. rewrite H. reflexivity. Qed.

Lemma fetchMessages_state (s : State) (conversationId : Z) :
  after_fetchMessages env s conversationId
  = loaded (respond env 0 (GET_messages conversationId)) (setIsLoading true s).
Proof.
  unfold after_fetchMessages. rewrite run_fetchMessages. await_cases. reflexivity.
Qed.

Lemma run_handleNewChat_A (w : World State) :
  run env handleNewChat w
  = (Returned tt,
     with_state (fun s => setInput [] (setMessages [] (setCurrentConversation None s))) w).
Proof. reflexivity. Qed.

End WithEnv.
End FactsA.

(** ** Second variant *)

Module FactsB.
Import VariantB RunB.

Section WithEnv.

Variable env : Env.

Lemma handleSend_selected_B (s : State) (c : Conversation.t) (w : World State) :
  sendable s -> currentConversation s = Some c ->
  run env (handleSend s) w
  = (Returned tt, send_to env s (Conversation.id c) (begin_send env s w)).
Proof.
  intros [Hin Hl] Hc. unfold handleSend. rewrite Hin, Hl. simpl.
  fold (tempUserMessage env s (w_ticks w)). fold (push (tempUserMessage env s (w_ticks w))).
  rewrite Hc.
  rewrite run_finally, run_try_catch, run_bind. simpl.
  rewrite run_bind, run_createMessage. unfold send_to, begin_send.
  match goal with |- context [sent ?x] => destruct (sent x) as [m|e] end;
    unfold fail_send, errorMessage, tempUserMessage; rewrite ?Hc; reflexivity.
Qed.

Lemma handleSend_fresh_B (s : State) (w : World State) :
  sendable s -> currentConversation s = None ->
  run env (handleSend s) w
  = (Returned tt,
     let title := lit "Conversation" in
     let w1 := awaited env (POST_conversations title) (begin_send env s w) in
     match created (respond env (w_seq w) (POST_conversations title)) with
     | Returned newConversation =>
         send_to env s (Conversation.id newConversation)
           (advance env fetchConversations
              (with_state (setCurrentConversation (Some newConversation)) w1))
     | Threw e => fail_send env s e w1
     end).
Proof.
  intros [Hin Hl] Hc. unfold handleSend. rewrite Hin, Hl. simpl.
  fold (tempUserMessage env s (w_ticks w)). fold (push (tempUserMessage env s (w_ticks w))).
  rewrite Hc.
  rewrite run_finally, run_try_catch, run_bind, run_bind, run_createConversation.
  simpl w_seq.
  destruct (created (respond env (w_seq w) (POST_conversations (lit "Conversation"))))
    as [nc|e].
  - simpl. rewrite run_bind, run_createMessage. unfold send_to, begin_send.
    match goal with |- context [sent ?x] => destruct (sent x) as [m|e] end;
      unfold fail_send, errorMessage, tempUserMessage; rewrite ?Hc; reflexivity.
  - unfold fail_send, begin_send, errorMessage, tempUserMessage; rewrite ?Hc.
    reflexivity.
Qed.

(** *** A send from a quiescent world *)

Ltac open_send s Hs :=
  unfold after_send, send_log, send, target, reply, post_no, new_title in *;
  let c := fresh "c0" in
  let Hc := fresh "Hc" in
  destruct (currentConversation s) as [c|] eqn:Hc;
  [ rewrite (handleSend_selected_B s c _ Hs Hc)
  | rewrite (handleSend_fresh_B s _ Hs Hc) ];
  unfold send_to, fail_send, begin_send, fetchConversations, push; await_cases.

Ltac outcome_cases :=
  repeat (match goal with
          | |- context [sent ?x] => destruct (sent x)
          | |- context [created ?x] => destruct (created x)
          end; await_cases).

(** [handleSend] catches everything. *)
Lemma send_returns_B (s : State) (w : World State) :
  fst (run env (handleSend s) w) = Returned tt.
Proof.
  destruct (truthy (trim (input s))) eqn:Hin;
    [destruct (isLoading s) eqn:Hl|];
    try (unfold handleSend; rewrite Hin; try rewrite Hl; reflexivity).
  destruct (currentConversation s) as [c|] eqn:Hc.
  - rewrite (handleSend_selected_B s c w (conj Hin Hl) Hc). reflexivity.
  - rewrite (handleSend_fresh_B s w (conj Hin Hl) Hc). reflexivity.
Qed.

Lemma failed_send_B (s : State) (c : Conversation.t) (e : Error) :
  sendable s -> target env s = Returned c -> reply env s c = Threw e ->
  input (after_send env s) = [] /\
  currentConversation (after_send env s) = Some c /\
  messages (after_send env s) = messages s ++ [tempUserMessage env s 0; errorMessage env s 2 e].
Proof.
  intros Hs Ht Hr. open_send s Hs.
  - injection Ht as ->. rewrite Hr. await_cases. rewrite <- app_assoc. auto.
  - rewrite Ht. await_cases; rewrite Hr; await_cases; refresh_cases;
      rewrite <- app_assoc; auto.
Qed.

Lemma sent_and_appended (s : State) (c : Conversation.t) (ai : Message.t) :
  sendable s -> target env s = Returned c -> reply env s c = Returned ai ->
  messages (after_send env s) = messages s ++ [tempUserMessage env s 0; ai].
Proof.
  intros Hs Ht Hr. open_send s Hs.
  - injection Ht as ->. rewrite Hr. await_cases. rewrite <- app_assoc. auto.
  - rewrite Ht. await_cases; rewrite Hr; await_cases; refresh_cases;
      rewrite <- app_assoc; auto.
Qed.

(** Whatever happens, a send leaves the thread with two more messages:
    the optimistic copy of the user's text and either the reply of the
    backend or the error notice. *)
Lemma send_places (s : State) :
  sendable s ->
  exists last,
    messages (after_send env s) = messages s ++ [tempUserMessage env s 0; last] /\
    ((exists n id ct, sent (respond env n (POST_messages id ct)) = Returned last) \/
     (exists e, last = errorMessage env s 2 e)).
Proof.
  intros Hs. open_send s Hs;
    repeat (match goal with
            | |- context [created ?x] => destruct (created x)
            | |- context [sent ?x] => destruct (sent x) eqn:?
            end; await_cases);
    refresh_cases; rewrite <- app_assoc; simpl;
    eexists; (split; [reflexivity|]); eauto.
Qed.

Lemma send_loading_B (s : State) :
  sendable s ->
  Forall (fun st => isLoading st = true) (snapshots (send_log env s)) /\
  snapshots (send_log env s) <> [] /\
  isLoading (after_send env s) = false.
Proof.
  intros Hs. open_send s Hs; outcome_cases; simpl; refresh_cases;
    (split; [repeat constructor|split; [discriminate|reflexivity]]).
Qed.

Lemma send_outstanding_B (s : State) :
  sendable s ->
  (max_outstanding 0 (own_requests (send_log env s)) <= 1)%nat /\
  (max_outstanding 0 (send_log env s) <= 2)%nat /\
  (currentConversation s <> None -> (max_outstanding 0 (send_log env s) <= 1)%nat).
Proof.
  intros Hs. open_send s Hs; outcome_cases; simpl;
    (split; [lia|split; [lia|]]); intros H; try lia; contradiction.
Qed.

Lemma send_numbered_B (s : State) :
  sendable s -> numbered (send_log env s) = send_requests env s.
Proof.
  intros Hs. unfold send_requests. open_send s Hs; outcome_cases; reflexivity.
Qed.

Lemma send_title_B (s : State) :
  sendable s -> currentConversation s = None ->
  hd_error (requests (send_log env s)) = Some (POST_conversations (lit "Conversation")).
Proof.
  intros Hs Hn.
  open_send s Hs; [discriminate|]. outcome_cases; reflexivity.
Qed.

Lemma send_blank_B (s : State) (w : World State) :
  forallb is_white_space (input s) = true ->
  run env (handleSend s) w = (Returned tt, w) /\
  forall key shiftKey, run env (handleKeyDown s key shiftKey) w = (Returned tt, w).
Proof.
  intros H.
  assert (E : run env (handleSend s) w = (Returned tt, w)).
  { unfold handleSend. rewrite (trim_white_space _ H). reflexivity. }
  split; [exact E|]. intros key shiftKey. unfold handleKeyDown.
  destruct (str_eqb key (lit "Enter") && negb shiftKey && negb (isLoading s));
    [exact E|reflexivity].
Qed.

(** *** Selecting a conversation, starting a new chat *)

Lemma run_handleConversationClick_B (s : State) (conversationId : Z) (w : World State) :
  run env (handleConversationClick s conversationId) w
  = (Returned tt,
     with_state (loaded (respond env (w_seq w) (GET_messages conversationId)))
       (awaited env (GET_messages conversationId)
          (with_state
             (setCurrentConversation
                (find (fun c => Conversation.id c =? conversationId)
                   (conversations s))) w))).
Proof.
  unfold handleConversationClick, loaded, fetch, json. simpl.
  destruct (respond env (w_seq w) (GET_messages conversationId))
    as [msg|[st tx [l|msg]]]; reflexivity.
Qed.

Lemma select_state (s : State) (conversationId : Z) :
  after_select env s conversationId
  = loaded (respond env 0 (GET_messages conversationId))
      (setCurrentConversation
         (find (fun c => Conversation.id c =? conversationId) (conversations s)) s).
Proof.
  unfold after_select, select. rewrite run_handleConversationClick_B.
  await_cases. reflexivity.
Qed.

Lemma run_handleNewChat_B (w : World State) :
  run env handleNewChat w
  = (Returned tt,
     with_state (fun s => setInput [] (setMessages [] (setCurrentConversation None s))) w).
Proof. reflexivity. Qed.

End WithEnv.
End FactsB.

(** * The properties of the specification *)

Import Sample.

(** ** Error handling *)

(** [createMessage] throws on a status outside 200-299, on a network
    failure and on a body that does not parse. *)
Lemma sent_unsuccessful (resp : Response Message.t) :
  ok resp = false ->
  sent (Responded resp)
  = Threw (mkError (lit "Failed to send message: " ++ of_number (status resp)
                      ++ lit " - " ++ body_text resp)).
Proof. intros H. unfold sent. rewrite H. reflexivity. Qed.

Lemma sent_network_error (msg : jsstring) :
  sent (NetworkError msg) = Threw (mkError msg).
Proof. reflexivity. Qed.

Lemma sent_successful (resp : Response Message.t) (m : Message.t) :
  ok resp = true -> body_json resp = JsonOk m -> sent (Responded resp) = Returned m.
Proof. intros H1 H2. unfold sent. rewrite H1, H2. reflexivity. Qed.

(** [createMessage] throws exactly when the request fails at the network
    level, the status is not successful or the body does not parse. *)
Lemma sent_throws (x : FetchResult Message.t) :
  (exists e, sent x = Threw e) <-> unreadable x \/ unsuccessful x.
Proof.
  unfold sent. destruct x as [msg|[st tx bj]]; simpl.
  - split; [intros _; left; exact I|intros _; eexists; reflexivity].
  - unfold ok. simpl. destruct ((200 <=? st) && (st <=? 299)).
    + destruct bj as [m|msg].
      * split; [intros [e H]; discriminate|].
        intros [[msg H]|H]; discriminate.
      * split; [intros _; left; eexists; reflexivity|].
        intros _. eexists. reflexivity.
    + split; [intros _; right; reflexivity|].
      intros _. eexists. reflexivity.
Qed.

(** C1, as stated, fails.  No conversation is selected and the user
    sends [hi]; the conversation is created, then the message is
    answered with status 500.  In the first variant the selection has
    changed to the created conversation; in the second variant the input
    stays empty. *)
Lemma C1_counterexample :
  RunA.reply backend_rejects_message fresh_A c1
  = Threw (mkError (lit "Failed to send message: 500 - boom")) /\
  VariantA.currentConversation (RunA.after_send backend_rejects_message fresh_A)
  <> VariantA.currentConversation fresh_A /\
  RunB.reply backend_rejects_message fresh_B c1
  = Threw (mkError (lit "Failed to send message: 500 - boom")) /\
  VariantB.input (RunB.after_send backend_rejects_message fresh_B)
  <> VariantB.input fresh_B.
Proof.
  repeat split; try (vm_compute; reflexivity); vm_compute; discriminate.
Qed.

(** C1, amended: when [createMessage] throws, the first variant restores
    the input to the submitted text and the second variant leaves it
    empty, appending an error notice to the thread; in both variants the
    selected conversation is the one the message was sent to, that is the
    one selected before the send or, when none was, the one the send
    created. *)
Theorem C1_failed_send (env : Env) :
  (forall (s : VariantA.State) (c : Conversation.t) (e : Error),
      RunA.sendable s ->
      RunA.target env s = Returned c ->
      RunA.reply env s c = Threw e ->
      VariantA.input (RunA.after_send env s) = VariantA.input s /\
      VariantA.currentConversation (RunA.after_send env s) = Some c) /\
  (forall (s : VariantB.State) (c : Conversation.t) (e : Error),
      RunB.sendable s ->
      RunB.target env s = Returned c ->
      RunB.reply env s c = Threw e ->
      VariantB.input (RunB.after_send env s) = [] /\
      VariantB.currentConversation (RunB.after_send env s) = Some c /\
      VariantB.messages (RunB.after_send env s)
      = VariantB.messages s
          ++ [RunB.tempUserMessage env s 0; RunB.errorMessage env s 2 e]).
Proof.
  split; intros s c e Hs Ht Hr.
  - exact (FactsA.failed_send_A env s c e Hs Ht Hr).
  - exact (FactsB.failed_send_B env s c e Hs Ht Hr).
Qed.

Lemma C1_failed_send_witness :
  VariantA.input (RunA.after_send backend_rejects_message open_A)
  = VariantA.input open_A /\
  VariantA.currentConversation (RunA.after_send backend_rejects_message open_A)
  = Some c1.
Proof.
  eapply (proj1 (C1_failed_send backend_rejects_message)).
  - split; reflexivity.
  - reflexivity.
  - vm_compute. reflexivity.
Defined.

(** C2, as stated, fails.  [fetchMessages] of the first variant is
    answered with status 500 and returns normally: its caller observes
    no error. *)
Lemma C2_counterexample :
  respond backend_rejects_fetch 0 (GET_messages 1) = Responded server_error /\
  ok (@server_error (list Message.t)) = false /\
  fst (run backend_rejects_fetch (VariantA.fetchMessages 1) (init_world open_A))
  = Returned tt.
Proof. repeat split; vm_compute; reflexivity. Qed.

(** The second variant does not look at the status at all: a response
    with status 500 whose body parses replaces the thread. *)
Lemma handleConversationClick_B_ignores_status :
  let env := mkEnv (fun _ r =>
                      match r with
                      | GET_messages _ =>
                          Responded (mkResponse 500 (lit "[]") (JsonOk []))
                      | GET_conversations => good []
                      | POST_conversations _ => good c1
                      | POST_messages _ _ => good m_reply
                      end) reads (fun _ => []) in
  RunB.select env open_B 1
  = (Returned tt,
     mkWorld (VariantB.setMessages [] open_B) [] 1 0
       [EvRequest 0 (GET_messages 1) open_B; EvResponse 0 (GET_messages 1)]).
Proof. vm_compute. reflexivity. Qed.

(** C2, amended: in the first variant, when the status of the response
    is not successful, [fetchMessages] returns normally to its caller and
    the failure shows in the state: [error] is "Failed to load messages",
    the thread is unchanged and [isLoading] is false; the same holds
    after [handleConversationClick]. *)
Theorem C2_unsuccessful_fetch_shows_error
        (env : Env) (s : VariantA.State) (conversationId : Z)
        (resp : Response (list Message.t)) :
  respond env 0 (GET_messages conversationId) = Responded resp ->
  ok resp = false ->
  fst (run env (VariantA.fetchMessages conversationId) (init_world s)) = Returned tt /\
  VariantA.error (RunA.after_fetchMessages env s conversationId)
  = lit "Failed to load messages" /\
  VariantA.messages (RunA.after_fetchMessages env s conversationId)
  = VariantA.messages s /\
  VariantA.isLoading (RunA.after_fetchMessages env s conversationId) = false /\
  fst (RunA.select env s conversationId) = Returned tt /\
  VariantA.error (RunA.after_select env s conversationId)
  = lit "Failed to load messages" /\
  VariantA.messages (RunA.after_select env s conversationId)
  = VariantA.messages s.
Proof.
  intros Hx Hok.
  rewrite FactsA.fetchMessages_state, FactsA.select_error, FactsA.select_messages.
  unfold RunA.select.
  rewrite FactsA.run_fetchMessages, FactsA.run_handleConversationClick_A.
  unfold RunA.loaded. rewrite Hx, (FactsA.fetched_unsuccessful resp Hok).
  repeat split; reflexivity.
Qed.

Lemma C2_unsuccessful_fetch_shows_error_witness :
  VariantA.error (RunA.after_fetchMessages backend_rejects_fetch open_A 1)
  = lit "Failed to load messages".
Proof.
  refine (proj1 (proj2
            (C2_unsuccessful_fetch_shows_error backend_rejects_fetch open_A 1
               server_error _ _)));
    reflexivity.
Defined.

(** ** Outstanding requests *)

(** C3, as stated, fails.  With no conversation selected, the send
    starts the refresh of the list of conversations without awaiting it
    and then sends the message: two requests are outstanding at once, in
    both variants. *)
Lemma C3_counterexample :
  requests (RunA.send_log backend_up fresh_A)
  = [POST_conversations hi; GET_conversations; POST_messages 1 hi; GET_messages 1] /\
  ~ (max_outstanding 0 (RunA.send_log backend_up fresh_A) <= 1)%nat /\
  ~ (max_outstanding 0 (RunB.send_log backend_up fresh_B) <= 1)%nat.
Proof.
  split; [vm_compute; reflexivity|].
  split; vm_compute; lia.
Qed.

(** C3, amended: in both variants the requests a send awaits itself
    (create conversation, send message, refetch) leave in that order and
    are strictly sequential, each leaving only after the previous one is
    answered; the refresh of the list of conversations that a send starts
    after creating a conversation is not awaited and may be outstanding
    together with them, so at most two requests are outstanding at any
    time, and at most one when a conversation was selected. *)
Theorem C3_awaited_requests_sequential (env : Env) :
  (forall s : VariantA.State,
      RunA.sendable s ->
      numbered (RunA.send_log env s) = RunA.send_requests env s /\
      (max_outstanding 0 (own_requests (RunA.send_log env s)) <= 1)%nat /\
      (max_outstanding 0 (RunA.send_log env s) <= 2)%nat /\
      (VariantA.currentConversation s <> None ->
       (max_outstanding 0 (RunA.send_log env s) <= 1)%nat)) /\
  (forall s : VariantB.State,
      RunB.sendable s ->
      numbered (RunB.send_log env s) = RunB.send_requests env s /\
      (max_outstanding 0 (own_requests (RunB.send_log env s)) <= 1)%nat /\
      (max_outstanding 0 (RunB.send_log env s) <= 2)%nat /\
      (VariantB.currentConversation s <> None ->
       (max_outstanding 0 (RunB.send_log env s) <= 1)%nat)).
Proof.
  split; intros s Hs.
  - split; [exact (FactsA.send_numbered_A env s Hs)|].
    exact (FactsA.send_outstanding_A env s Hs).
  - split; [exact (FactsB.send_numbered_B env s Hs)|].
    exact (FactsB.send_outstanding_B env s Hs).
Qed.

Lemma C3_awaited_requests_sequential_witness :
  numbered (RunA.send_log backend_up fresh_A) = RunA.send_requests backend_up fresh_A /\
  (max_outstanding 0 (own_requests (RunA.send_log backend_up fresh_A)) <= 1)%nat /\
  (max_outstanding 0 (RunA.send_log backend_up fresh_A) <= 2)%nat /\
  (VariantA.currentConversation fresh_A <> None ->
   (max_outstanding 0 (RunA.send_log backend_up fresh_A) <= 1)%nat).
Proof.
  apply (proj1 (C3_awaited_requests_sequential backend_up) fresh_A).
  split; reflexivity.
Defined.

(** ** The thread *)

Lemma honest_fetched (known : Z -> Prop) (env : Env) (n : nat) (id : Z)
      (l : list Message.t) :
  honest known env ->
  RunA.fetched (respond env n (GET_messages id)) = Returned l ->
  Forall (belongs known) l.
Proof.
  intros H E. unfold RunA.fetched in E.
  destruct (respond env n (GET_messages id)) as [msg|[st tx bj]] eqn:Hx;
    [discriminate|].
  unfold ok in E. simpl in E.
  destruct ((200 <=? st) && (st <=? 299)); [|discriminate].
  destruct bj as [v|msg]; [|discriminate].
  injection E as <-. exact (H n (GET_messages id) _ v Hx eq_refl).
Qed.

Lemma honest_sent (known : Z -> Prop) (env : Env) (n : nat) (id : Z)
      (ct : jsstring) (m : Message.t) :
  honest known env ->
  sent (respond env n (POST_messages id ct)) = Returned m ->
  belongs known m.
Proof.
  intros H E. unfold sent in E.
  destruct (respond env n (POST_messages id ct)) as [msg|[st tx bj]] eqn:Hx;
    [discriminate|].
  unfold ok in E. simpl in E.
  destruct ((200 <=? st) && (st <=? 299)); [|discriminate].
  destruct bj as [v|msg]; [|discriminate].
  injection E as <-.
  pose proof (H n (POST_messages id ct) _ v Hx eq_refl) as F.
  inversion F; assumption.
Qed.

Lemma id_or_selected (c : Conversation.t) :
  id_or (Some c) 0 = Conversation.id c.
Proof.
  unfold id_or. destruct (Conversation.id c =? 0) eqn:E; [|reflexivity].
  apply Z.eqb_eq in E. symmetry. exact E.
Qed.

(** C4, as stated, fails.  In the second variant, with no conversation
    selected, the user sends [hi] and everything succeeds: the optimistic
    copy of the message is in the thread with [conversation_id] 0, which
    is the id of no conversation (the only one has id 1). *)
Lemma C4_counterexample :
  let s' := RunB.after_send backend_up fresh_B in
  map Conversation.id (VariantB.conversations s') = [1] /\
  option_map Conversation.id (VariantB.currentConversation s') = Some 1 /\
  map Message.conversation_id (VariantB.messages s') = [0; 1] /\
  ~ Forall (belongs (fun id => In id (map Conversation.id (VariantB.conversations s'))))
      (VariantB.messages s').
Proof.
  repeat split; try (vm_compute; reflexivity).
  intros F. apply Forall_inv in F. destruct F as [F _].
  vm_compute in F. destruct F as [F|[]]. discriminate.
Qed.

(** C4, amended: provided every message the backend returns belongs to
    an existing conversation, every operation keeps the displayed
    messages belonging to an existing conversation with role [user] or
    [assistant], a send of the second variant included when the
    conversation selected at its start exists; when a send of the second
    variant starts with no conversation selected, the messages it builds
    itself carry the [conversation_id] 0 instead. *)
Theorem C4_messages_belong (known : Z -> Prop) (env : Env) :
  honest known env ->
  (forall s : VariantA.State,
      Forall (belongs known) (VariantA.messages s) ->
      (RunA.sendable s ->
       Forall (belongs known) (VariantA.messages (RunA.after_send env s))) /\
      (forall id,
          Forall (belongs known) (VariantA.messages (RunA.after_select env s id))) /\
      Forall (belongs known)
        (VariantA.messages
           (w_state (snd (run env VariantA.handleNewChat (init_world s)))))) /\
  (forall s : VariantB.State,
      Forall (belongs known) (VariantB.messages s) ->
      (forall c,
          RunB.sendable s ->
          VariantB.currentConversation s = Some c ->
          known (Conversation.id c) ->
          Forall (belongs known) (VariantB.messages (RunB.after_send env s))) /\
      (RunB.sendable s ->
       VariantB.currentConversation s = None ->
       Forall (fun m => belongs known m \/ placeholder m)
         (VariantB.messages (RunB.after_send env s))) /\
      (forall id,
          Forall (belongs known) (VariantB.messages (RunB.after_select env s id))) /\
      Forall (belongs known)
        (VariantB.messages
           (w_state (snd (run env VariantB.handleNewChat (init_world s)))))).
Proof.
  intros Hh. split; intros s H0.
  - split; [|split].
    + intros Hs. apply (FactsA.send_keeps env); [exact Hs|exact H0|].
      intros n id l E. exact (honest_fetched known env n id l Hh E).
    + intros id. rewrite FactsA.select_messages.
      destruct (RunA.fetched (respond env 0 (GET_messages id))) as [l|e] eqn:E;
        [exact (honest_fetched known env 0 id l Hh E)|exact H0].
    + constructor.
  - split; [|split; [|split]].
    + intros c Hs Hc Hk.
      destruct (FactsB.send_places env s Hs) as [last [-> Hl]].
      apply Forall_app. split; [exact H0|].
      constructor; [|constructor; [|constructor]].
      * split; [|left; reflexivity].
        unfold RunB.tempUserMessage. simpl. rewrite Hc, id_or_selected. exact Hk.
      * destruct Hl as [[n [id [ct E]]]|[e ->]].
        -- exact (honest_sent known env n id ct last Hh E).
        -- split; [|right; reflexivity].
           unfold RunB.errorMessage. simpl. rewrite Hc, id_or_selected. exact Hk.
    + intros Hs Hc.
      destruct (FactsB.send_places env s Hs) as [last [-> Hl]].
      apply Forall_app. split.
      * eapply Forall_impl; [|exact H0]. intros m Hm. left. exact Hm.
      * constructor; [|constructor; [|constructor]].
        -- right. split; [|left; reflexivity].
           unfold RunB.tempUserMessage. simpl. rewrite Hc. reflexivity.
        -- destruct Hl as [[n [id [ct E]]]|[e ->]].
           ++ left. exact (honest_sent known env n id ct last Hh E).
           ++ right. split; [|right; reflexivity].
              unfold RunB.errorMessage. simpl. rewrite Hc. reflexivity.
    + intros id. rewrite FactsB.select_state. unfold RunB.loaded.
      destruct (respond env 0 (GET_messages id)) as [msg|[st tx [v|msg]]] eqn:Hx;
        try exact H0.
      exact (Hh 0%nat (GET_messages id) _ v Hx eq_refl).
    + constructor.
Qed.

Lemma backend_up_honest : honest (fun id => id = 1) backend_up.
Proof.
  intros n r resp v Hx Hb. destruct r; simpl in *;
    injection Hx as <-; simpl in Hb; injection Hb as <-;
    repeat first
      [ apply Forall_nil
      | apply Forall_cons
      | split; [reflexivity|first [left; reflexivity|right; reflexivity]] ].
Qed.

Lemma C4_messages_belong_witness :
  Forall (belongs (fun id => id = 1))
    (VariantB.messages (RunB.after_send backend_up open_B)).
Proof.
  refine (proj1 (proj2 (C4_messages_belong (fun id => id = 1) backend_up
                          backend_up_honest) open_B _) c1 _ _ _).
  - repeat first
      [ apply Forall_nil
      | apply Forall_cons
      | split; [reflexivity|first [left; reflexivity|right; reflexivity]] ].
  - split; reflexivity.
  - reflexivity.
  - reflexivity.
Defined.

(** ** Sending *)

(** C5: with an input that is empty or consists of white space only,
    [handleSend], called directly (the button) or through [handleKeyDown]
    (the Enter key), returns at once in both variants: the world is
    unchanged, so no request leaves and no state changes. *)
Theorem C5_blank_input_sends_nothing (env : Env) :
  (forall (s : VariantA.State) (w : World VariantA.State),
      forallb is_white_space (VariantA.input s) = true ->
      run env (VariantA.handleSend s) w = (Returned tt, w) /\
      forall key shiftKey,
        run env (VariantA.handleKeyDown s key shiftKey) w = (Returned tt, w)) /\
  (forall (s : VariantB.State) (w : World VariantB.State),
      forallb is_white_space (VariantB.input s) = true ->
      run env (VariantB.handleSend s) w = (Returned tt, w) /\
      forall key shiftKey,
        run env (VariantB.handleKeyDown s key shiftKey) w = (Returned tt, w)).
Proof.
  split; intros s w H.
  - exact (FactsA.send_blank_A env s w H).
  - exact (FactsB.send_blank_B env s w H).
Qed.

Lemma C5_blank_input_sends_nothing_witness :
  let s := VariantA.setInput (lit "  ") open_A in
  run backend_up (VariantA.handleSend s) (init_world s) = (Returned tt, init_world s).
Proof.
  refine (proj1 (proj1 (C5_blank_input_sends_nothing backend_up) _ _ _)).
  reflexivity.
Defined.

(** ** Selecting a conversation *)

Lemma fetched_answered (x : FetchResult (list Message.t)) (l : list Message.t) :
  answered x l -> RunA.fetched x = Returned l.
Proof.
  intros [resp [-> [Hok Hb]]]. unfold RunA.fetched. rewrite Hok, Hb. reflexivity.
Qed.

Lemma fetched_failed (x : FetchResult (list Message.t)) :
  unreadable x \/ unsuccessful x -> exists e, RunA.fetched x = Threw e.
Proof.
  unfold RunA.fetched. destruct x as [msg|resp]; simpl.
  - intros _. eexists. reflexivity.
  - intros [[msg Hb]|Hok].
    + rewrite Hb. destruct (ok resp); eexists; reflexivity.
    + rewrite Hok. eexists. reflexivity.
Qed.

Lemma sent_answered (x : FetchResult Message.t) (m : Message.t) :
  answered x m -> sent x = Returned m.
Proof.
  intros [resp [-> [Hok Hb]]]. exact (sent_successful resp m Hok Hb).
Qed.

(** C6, as stated, fails.  The sidebar lists conversation 1, whose
    thread is shown, and the user clicks that item while the network is
    down: [handleConversationClick] completes, the backend has returned
    no sequence for id 1, and the thread shown before the click is still
    displayed. *)
Lemma C6_counterexample :
  In 1 (map Conversation.id (VariantA.conversations open_A)) /\
  VariantA.isLoading open_A = false /\
  fst (RunA.select backend_unreachable open_A 1) = Returned tt /\
  returned_messages (respond backend_unreachable 0 (GET_messages 1)) = None /\
  VariantA.messages (RunA.after_select backend_unreachable open_A 1)
  = [m_user; m_ai] /\
  Some (VariantA.messages (RunA.after_select backend_unreachable open_A 1))
  <> returned_messages (respond backend_unreachable 0 (GET_messages 1)).
Proof.
  split; [left; reflexivity|].
  repeat split; try (vm_compute; reflexivity). vm_compute. discriminate.
Qed.

(** C6, amended: for a click on a conversation made while no other
    request is outstanding, in both variants [handleConversationClick]
    always completes; when the backend answers the request for the
    messages with a successful status and a body that parses, the
    displayed list afterwards is exactly the returned sequence; when the
    request fails at the network level or the body does not parse (and,
    in the first variant, when the status is not successful) the
    displayed list is left as it was.  A click of the second variant
    does not set [isLoading], so another click or a send can start while
    its request is outstanding: such overlapping calls are not covered. *)
Theorem C6_selection_shows_returned_sequence (env : Env) :
  (forall (s : VariantA.State) (id : Z),
      fst (RunA.select env s id) = Returned tt) /\
  (forall (s : VariantA.State) (id : Z) (l : list Message.t),
      answered (respond env 0 (GET_messages id)) l ->
      VariantA.messages (RunA.after_select env s id) = l) /\
  (forall (s : VariantA.State) (id : Z),
      unreadable (respond env 0 (GET_messages id)) \/
      unsuccessful (respond env 0 (GET_messages id)) ->
      VariantA.messages (RunA.after_select env s id) = VariantA.messages s) /\
  (forall (s : VariantB.State) (id : Z),
      fst (RunB.select env s id) = Returned tt) /\
  (forall (s : VariantB.State) (id : Z) (l : list Message.t),
      answered (respond env 0 (GET_messages id)) l ->
      VariantB.messages (RunB.after_select env s id) = l) /\
  (forall (s : VariantB.State) (id : Z),
      unreadable (respond env 0 (GET_messages id)) ->
      VariantB.messages (RunB.after_select env s id) = VariantB.messages s).
Proof.
  split; [|split; [|split; [|split; [|split]]]].
  - intros s id. unfold RunA.select.
    rewrite FactsA.run_handleConversationClick_A. reflexivity.
  - intros s id l H. rewrite FactsA.select_messages, (fetched_answered _ l H).
    reflexivity.
  - intros s id H. rewrite FactsA.select_messages.
    destruct (fetched_failed _ H) as [e ->]. reflexivity.
  - intros s id. unfold RunB.select.
    rewrite FactsB.run_handleConversationClick_B. reflexivity.
  - intros s id l [[st tx bj] [Hx [_ Hb]]]. rewrite FactsB.select_state, Hx.
    simpl in Hb. subst bj. reflexivity.
  - intros s id H. rewrite FactsB.select_state.
    destruct (respond env 0 (GET_messages id)) as [msg|[st tx bj]]; [reflexivity|].
    destruct H as [msg Hb]. simpl in Hb. subst bj. reflexivity.
Qed.

Lemma C6_selection_shows_returned_sequence_witness :
  VariantA.messages (RunA.after_select backend_up open_A 1)
  = [m_user; m_ai; m_sent; m_reply].
Proof.
  apply (proj1 (proj2 (C6_selection_shows_returned_sequence backend_up)) open_A 1).
  eexists. repeat split; reflexivity.
Defined.

(** ** A successful send *)

Lemma count_occ_two_more (l : list Message.t) (a b m : Message.t) :
  m <> a -> m <> b ->
  count_occ Message_eq_dec (l ++ [a; b]) m = count_occ Message_eq_dec l m.
Proof.
  intros Ha Hb. rewrite count_occ_app. simpl.
  destruct (Message_eq_dec a m) as [E|_]; [symmetry in E; contradiction|].
  destruct (Message_eq_dec b m) as [E|_]; [symmetry in E; contradiction|].
  lia.
Qed.

(** A send of the second variant need not start with nothing pending.
    The user clicks conversation 1, whose request stays outstanding, and
    sends [hi] from the page as rendered then; the response of the click
    arrives while the message is being sent and replaces the thread,
    optimistic message included, and the reply is appended to that.  The
    thread ends one message longer, not two. *)
Lemma send_during_click_B :
  List.length (w_pool (RunB.clicked backend_short_thread open_B 1)) = 1%nat /\
  RunB.sendable (w_state (RunB.clicked backend_short_thread open_B 1)) /\
  fst (RunB.send_during_select backend_short_thread open_B 1) = Returned tt /\
  VariantB.messages
    (w_state (snd (RunB.send_during_select backend_short_thread open_B 1)))
  = [m_user; m_ai; m_reply].
Proof. repeat split; vm_compute; reflexivity. Qed.

(** C7, as stated, fails.  In the first variant the message is sent and
    answered with the reply, then the refetch fails at the network level:
    [handleSend] completes and the thread does not contain the reply. *)
Lemma C7_counterexample :
  RunA.reply backend_unreachable open_A c1 = Returned m_reply /\
  fst (RunA.send backend_unreachable open_A) = Returned tt /\
  VariantA.messages (RunA.after_send backend_unreachable open_A) = [m_user; m_ai] /\
  ~ In m_reply (VariantA.messages (RunA.after_send backend_unreachable open_A)).
Proof.
  repeat split; try (vm_compute; reflexivity).
  vm_compute. intros [H|[H|[]]]; discriminate.
Qed.

(** C7, amended: for a send started while no other request is
    outstanding, [handleSend] always completes, and: in the first
    variant, after a send whose message is accepted and whose refetch
    succeeds, the thread is exactly the refetched sequence, which
    replaces the prior thread; if the refetch fails the thread is left
    as it was; in the second variant, after a send whose message is
    accepted, the thread is the prior thread followed by the optimistic
    copy of the user's message and the reply, so every other message
    occurs as often as before.  A click of the second variant does not
    set [isLoading], so a send can start while its request is
    outstanding: that send is not covered (see
    [send_during_click_B]). *)
Theorem C7_thread_after_successful_send (env : Env) :
  (forall s : VariantA.State, fst (RunA.send env s) = Returned tt) /\
  (forall (s : VariantA.State) (c : Conversation.t) (ai : Message.t)
          (l : list Message.t),
      RunA.sendable s ->
      RunA.target env s = Returned c ->
      RunA.reply env s c = Returned ai ->
      RunA.refetch env s c = Returned l ->
      VariantA.messages (RunA.after_send env s) = l) /\
  (forall (s : VariantA.State) (c : Conversation.t) (ai : Message.t)
          (e : Error),
      RunA.sendable s ->
      RunA.target env s = Returned c ->
      RunA.reply env s c = Returned ai ->
      RunA.refetch env s c = Threw e ->
      VariantA.messages (RunA.after_send env s) = VariantA.messages s) /\
  (forall s : VariantB.State, fst (RunB.send env s) = Returned tt) /\
  (forall (s : VariantB.State) (c : Conversation.t) (ai : Message.t),
      RunB.sendable s ->
      RunB.target env s = Returned c ->
      RunB.reply env s c = Returned ai ->
      VariantB.messages (RunB.after_send env s)
      = VariantB.messages s ++ [RunB.tempUserMessage env s 0; ai] /\
      forall m,
        m <> RunB.tempUserMessage env s 0 -> m <> ai ->
        count_occ Message_eq_dec (VariantB.messages (RunB.after_send env s)) m
        = count_occ Message_eq_dec (VariantB.messages s) m).
Proof.
  split; [|split; [|split; [|split]]].
  - intros s. exact (FactsA.send_returns_A env s (init_world s)).
  - intros s c ai l Hs Ht Hr Hf.
    rewrite (FactsA.sent_and_refetched env s c ai Hs Ht Hr), Hf. reflexivity.
  - intros s c ai e Hs Ht Hr Hf.
    rewrite (FactsA.sent_and_refetched env s c ai Hs Ht Hr), Hf. reflexivity.
  - intros s. exact (FactsB.send_returns_B env s (init_world s)).
  - intros s c ai Hs Ht Hr.
    rewrite (FactsB.sent_and_appended env s c ai Hs Ht Hr).
    split; [reflexivity|]. intros m Ha Hb.
    exact (count_occ_two_more _ _ _ m Ha Hb).
Qed.

Lemma C7_thread_after_successful_send_witness :
  VariantA.messages (RunA.after_send backend_up open_A)
  = [m_user; m_ai; m_sent; m_reply].
Proof.
  apply (proj1 (proj2 (C7_thread_after_successful_send backend_up))
           open_A c1 m_reply).
  - split; reflexivity.
  - reflexivity.
  - reflexivity.
  - reflexivity.
Defined.

(** ** New chat, loading, titles *)

(** C8: in every state, [handleNewChat] leaves the displayed messages
    empty, the input empty and no conversation selected, in both
    variants; it sends no request. *)
Theorem C8_new_chat_clears (env : Env) :
  (forall w : World VariantA.State,
      let r := run env VariantA.handleNewChat w in
      fst r = Returned tt /\
      VariantA.messages (w_state (snd r)) = [] /\
      VariantA.input (w_state (snd r)) = [] /\
      VariantA.currentConversation (w_state (snd r)) = None /\
      w_log (snd r) = w_log w) /\
  (forall w : World VariantB.State,
      let r := run env VariantB.handleNewChat w in
      fst r = Returned tt /\
      VariantB.messages (w_state (snd r)) = [] /\
      VariantB.input (w_state (snd r)) = [] /\
      VariantB.currentConversation (w_state (snd r)) = None /\
      w_log (snd r) = w_log w).
Proof.
  split; intros w.
  - rewrite FactsA.run_handleNewChat_A. repeat split.
  - rewrite FactsB.run_handleNewChat_B. repeat split.
Qed.

(** C9: [isLoading] is a boolean, idle or loading.  In both variants a
    send that passes the guard completes, each of its requests leaves in
    the loading state (and there is at least one), and the state is idle
    when it completes, whether the send succeeded or failed. *)
Theorem C9_send_toggles_loading (env : Env) :
  (forall s : VariantA.State,
      RunA.sendable s ->
      fst (RunA.send env s) = Returned tt /\
      Forall (fun st => VariantA.isLoading st = true)
        (snapshots (RunA.send_log env s)) /\
      snapshots (RunA.send_log env s) <> [] /\
      VariantA.isLoading (RunA.after_send env s) = false) /\
  (forall s : VariantB.State,
      RunB.sendable s ->
      fst (RunB.send env s) = Returned tt /\
      Forall (fun st => VariantB.isLoading st = true)
        (snapshots (RunB.send_log env s)) /\
      snapshots (RunB.send_log env s) <> [] /\
      VariantB.isLoading (RunB.after_send env s) = false).
Proof.
  split; intros s Hs.
  - split; [exact (FactsA.send_returns_A env s _)|].
    exact (FactsA.send_loading_A env s Hs).
  - split; [exact (FactsB.send_returns_B env s _)|].
    exact (FactsB.send_loading_B env s Hs).
Qed.

Lemma C9_send_toggles_loading_witness :
  fst (RunB.send backend_rejects_message fresh_B) = Returned tt /\
  Forall (fun st => VariantB.isLoading st = true)
    (snapshots (RunB.send_log backend_rejects_message fresh_B)) /\
  snapshots (RunB.send_log backend_rejects_message fresh_B) <> [] /\
  VariantB.isLoading (RunB.after_send backend_rejects_message fresh_B) = false.
Proof.
  apply (proj2 (C9_send_toggles_loading backend_rejects_message) fresh_B).
  split; reflexivity.
Defined.

(** C10: when a message is sent with no conversation selected, the first
    request of the send creates the conversation; its title is the first
    50 code units of the input in the first variant and the fixed string
    "Conversation" in the second. *)
Theorem C10_title_of_created_conversation (env : Env) :
  (forall s : VariantA.State,
      RunA.sendable s ->
      VariantA.currentConversation s = None ->
      hd_error (requests (RunA.send_log env s))
      = Some (POST_conversations (firstn 50 (VariantA.input s)))) /\
  (forall s : VariantB.State,
      RunB.sendable s ->
      VariantB.currentConversation s = None ->
      hd_error (requests (RunB.send_log env s))
      = Some (POST_conversations (lit "Conversation"))).
Proof.
  split; intros s Hs Hn.
  - exact (FactsA.send_title_A env s Hs Hn).
  - exact (FactsB.send_title_B env s Hs Hn).
Qed.

Lemma C10_title_of_created_conversation_witness :
  hd_error (requests (RunA.send_log backend_up fresh_A))
  = Some (POST_conversations (firstn 50 (VariantA.input fresh_A))).
Proof.
  apply (proj1 (C10_title_of_created_conversation backend_up) fresh_A).
  - split; reflexivity.
  - reflexivity.
Defined.

(** * Further properties of the code *)

(** ** Strings *)

Lemma str_eqb_eq (a b : jsstring) : str_eqb a b = true <-> a = b.
Proof.
  revert b. induction a as [|x a IH]; intros [|y b]; simpl;
    try (split; [discriminate|discriminate]); [split; reflexivity|].
  rewrite andb_true_iff, N.eqb_eq, IH.
  split; [intros [-> ->]; reflexivity|intros E; injection E; auto].
Qed.

Lemma trimStart_nil_white_space (s : jsstring) :
  trimStart s = [] -> forallb is_white_space s = true.
Proof.
  induction s as [|c s IH]; simpl; [reflexivity|].
  destruct (is_white_space c); [exact IH|discriminate].
Qed.

Lemma trimStart_white_space_tail (s : jsstring) :
  forallb is_white_space (trimStart s) = true -> forallb is_white_space s = true.
Proof.
  induction s as [|c s IH]; simpl; [reflexivity|].
  destruct (is_white_space c) eqn:E; simpl; [exact IH|].
  rewrite E. discriminate.
Qed.

Lemma forallb_rev {X} (f : X -> bool) (l : list X) :
  forallb f (rev l) = forallb f l.
Proof.
  induction l as [|x l IH]; simpl; [reflexivity|].
  rewrite forallb_app, IH. simpl. rewrite andb_true_r. apply andb_comm.
Qed.

(** [!s.trim()] holds exactly of the strings made of white space. *)
Lemma blank_iff (s : jsstring) :
  truthy (trim s) = false <-> forallb is_white_space s = true.
Proof.
  split.
  - intros H. destruct (trim s) as [|c t] eqn:E; [|discriminate].
    unfold trim, trimEnd in E.
    apply (f_equal (@rev N)) in E. rewrite rev_involutive in E. simpl in E.
    apply trimStart_nil_white_space in E. rewrite forallb_rev in E.
    exact (trimStart_white_space_tail s E).
  - intros H. rewrite (trim_white_space s H). reflexivity.
Qed.

Lemma numbered_nil {St} (l : list (Event St)) :
  l = [] -> numbered l = [].
Proof. intros ->. reflexivity. Qed.

(** ** Conversations and the sidebar *)

Lemma find_by_id (l : list Conversation.t) (c : Conversation.t) :
  In c l ->
  exists c',
    find (fun x => Conversation.id x =? Conversation.id c) l = Some c' /\
    Conversation.id c' = Conversation.id c /\
    In c' l.
Proof.
  induction l as [|x l IH]; simpl; [contradiction|]. intros H.
  destruct (Conversation.id x =? Conversation.id c) eqn:E.
  - exists x. apply Z.eqb_eq in E. auto.
  - destruct H as [->|H]; [rewrite Z.eqb_refl in E; discriminate|].
    destruct (IH H) as [c' [F [I J]]]. exists c'. auto.
Qed.

Lemma find_by_id_none (l : list Conversation.t) (id : Z) :
  (forall c, In c l -> Conversation.id c <> id) ->
  find (fun x => Conversation.id x =? id) l = None.
Proof.
  induction l as [|x l IH]; simpl; [reflexivity|]. intros H.
  destruct (Conversation.id x =? id) eqn:E.
  - apply Z.eqb_eq in E. exfalso. exact (H x (or_introl eq_refl) E).
  - apply IH. intros c Hc. exact (H c (or_intror Hc)).
Qed.

Section Sidebar.

Variable St : Type.
Variable env : Env.
Variable setConversations : list Conversation.t -> St -> St.

Transparent fetchConversations.

Lemma run_fetchConversations (w : World St) :
  run env (fetchConversations setConversations) w
  = (Returned tt,
     with_state (refreshed setConversations (respond env (w_seq w) GET_conversations))
       (awaited env GET_conversations w)).
Proof.
  unfold fetchConversations, fetch, json, refreshed. simpl.
  destruct (respond env (w_seq w) GET_conversations)
    as [msg|[st tx [data|msg]]]; reflexivity.
Qed.

Opaque fetchConversations.

(** The response to the one pending refresh arrives. *)
Lemma settle_pending_refresh (s : St) (m n t : nat) (log : list (Event St)) :
  settle env [0%nat] (mkWorld s [refresh setConversations m] n t log)
  = mkWorld (refreshed setConversations (respond env m GET_conversations) s) []
      n t (log ++ [EvResponse m GET_conversations]).
Proof.
  unfold settle, deliver. simpl. rewrite advance_refresh_k. reflexivity.
Qed.

Lemma settle_nothing_pending (l : list nat) (s : St) (n t : nat)
      (log : list (Event St)) :
  settle env l (mkWorld s [] n t log) = mkWorld s [] n t log.
Proof. apply settle_nil. reflexivity. Qed.

End Sidebar.

Opaque fetchConversations.

(** ** First variant, continued *)

Module MoreA.
Import VariantA RunA.

Section WithEnv.

Variable env : Env.

Ltac open_send s Hs :=
  unfold after_send, send_log, send, target, reply, refetch, post_no, new_title in *;
  let c := fresh "c0" in
  let Hc := fresh "Hc" in
  destruct (currentConversation s) as [c|] eqn:Hc;
  [ rewrite (FactsA.handleSend_selected_A env s c _ Hs Hc)
  | rewrite (FactsA.handleSend_fresh_A env s _ Hs Hc) ];
  unfold send_to, fetchConversations, loaded; await_cases.

Ltac outcome_cases :=
  repeat (match goal with
          | |- context [sent ?x] => destruct (sent x)
          | |- context [created ?x] => destruct (created x)
          | |- context [fetched ?x] => destruct (fetched x)
          end; await_cases).

Lemma sendDisabled_sendable_A (s : State) :
  sendDisabled s = false <-> sendable s.
Proof.
  unfold sendDisabled, sendable. rewrite orb_false_iff, negb_false_iff. tauto.
Qed.

Lemma sendDisabled_blank_or_loading_A (s : State) :
  sendDisabled s = true <->
  forallb is_white_space (input s) = true \/ isLoading s = true.
Proof.
  unfold sendDisabled. rewrite orb_true_iff, negb_true_iff, blank_iff. tauto.
Qed.

Lemma handleSend_disabled_A (s : State) (w : World State) :
  sendDisabled s = true -> run env (handleSend s) w = (Returned tt, w).
Proof.
  unfold sendDisabled, handleSend. intros ->. reflexivity.
Qed.

Lemma send_log_nil_A (s : State) :
  send_log env s = [] <-> sendDisabled s = true.
Proof.
  split.
  - intros H. destruct (sendDisabled s) eqn:E; [reflexivity|].
    apply sendDisabled_sendable_A in E.
    pose proof (FactsA.send_numbered_A env s E) as N.
    rewrite H in N. simpl in N. unfold send_requests in N.
    destruct (currentConversation s); discriminate.
  - intros H. unfold send_log, send. rewrite (handleSend_disabled_A s _ H).
    reflexivity.
Qed.

Lemma handleKeyDown_enter_A (s : State) (w : World State) :
  run env (handleKeyDown s (lit "Enter") false) w = run env (handleSend s) w.
Proof.
  unfold handleKeyDown. simpl. destruct (isLoading s) eqn:E; [|reflexivity].
  simpl. symmetry. apply handleSend_disabled_A. unfold sendDisabled.
  rewrite E. apply orb_true_r.
Qed.

Lemma handleKeyDown_other_A (s : State) (key : jsstring) (shiftKey : bool)
      (w : World State) :
  key <> lit "Enter" \/ shiftKey = true \/ isLoading s = true ->
  run env (handleKeyDown s key shiftKey) w = (Returned tt, w).
Proof.
  intros H. unfold handleKeyDown.
  destruct (str_eqb key (lit "Enter")) eqn:E; [|reflexivity].
  apply str_eqb_eq in E.
  destruct shiftKey; [reflexivity|].
  destruct (isLoading s); [reflexivity|].
  destruct H as [H|[H|H]]; [contradiction|discriminate|discriminate].
Qed.

Lemma locked_A (st : State) : isLoading st = true -> locked st.
Proof.
  intros H.
  assert (D : sendDisabled st = true).
  { unfold sendDisabled. rewrite H. apply orb_true_r. }
  unfold locked, newChatDisabled, textareaDisabled.
  repeat split; try assumption.
  - intros env' w. unfold handleSend. unfold sendDisabled in D. rewrite D.
    reflexivity.
  - intros env' key shiftKey w. unfold handleKeyDown. rewrite H.
    rewrite andb_false_r. reflexivity.
  - intros env' id w. unfold onConversationClick. rewrite H. reflexivity.
Qed.

Lemma send_locks_A (s : State) :
  sendable s -> Forall locked (snapshots (send_log env s)).
Proof.
  intros Hs. destruct (FactsA.send_loading_A env s Hs) as [F _].
  eapply Forall_impl; [|exact F]. intros st. exact (locked_A st).
Qed.

(** *** Selecting a conversation *)

Lemma select_summary_A (s : State) (id : Z) :
  fst (select env s id) = Returned tt /\
  numbered (w_log (snd (select env s id))) = [(0%nat, GET_messages id)] /\
  Forall (fun st =>
            isLoading st = true /\
            currentConversation st
            = find (fun c => Conversation.id c =? id) (conversations s))
    (snapshots (w_log (snd (select env s id)))) /\
  currentConversation (after_select env s id)
  = find (fun c => Conversation.id c =? id) (conversations s) /\
  isLoading (after_select env s id) = false /\
  input (after_select env s id) = input s /\
  conversations (after_select env s id) = conversations s /\
  error (after_select env s id) <> lit "Failed to load conversation".
Proof.
  unfold after_select, select. rewrite FactsA.run_handleConversationClick_A.
  unfold loaded. await_cases.
  destruct (fetched _); simpl; repeat split;
    try (repeat constructor; fail);
    intros H; vm_compute in H; discriminate.
Qed.

(** *** After a send *)

Lemma send_error_A (s : State) :
  sendable s ->
  error (after_send env s)
  = match target env s with
    | Threw e =>
        lit "Failed to send message: " ++ or_else (message e) (lit "Please try again")
    | Returned c =>
        match reply env s c with
        | Threw e =>
            lit "Failed to send message: "
              ++ or_else (message e) (lit "Please try again")
        | Returned _ =>
            match refetch env s c with
            | Returned _ => []
            | Threw _ => lit "Failed to load messages"
            end
        end
    end.
Proof.
  intros Hs. open_send s Hs; outcome_cases; simpl; refresh_cases;
    first [reflexivity|congruence].
Qed.

Lemma send_input_A (s : State) :
  sendable s ->
  input (after_send env s)
  = match target env s with
    | Threw _ => input s
    | Returned c =>
        match reply env s c with
        | Threw _ => input s
        | Returned _ => []
        end
    end.
Proof.
  intros Hs. open_send s Hs; outcome_cases; simpl; refresh_cases;
    first [reflexivity|congruence].
Qed.

Lemma send_selection_A (s : State) :
  sendable s ->
  currentConversation (after_send env s)
  = match target env s with
    | Threw _ => None
    | Returned c => Some c
    end.
Proof.
  intros Hs. open_send s Hs; outcome_cases; simpl; refresh_cases;
    first [reflexivity|congruence].
Qed.

Lemma send_messages_A (s : State) :
  sendable s ->
  messages (after_send env s)
  = match target env s with
    | Threw _ => messages s
    | Returned c =>
        match reply env s c with
        | Threw _ => messages s
        | Returned _ =>
            match refetch env s c with
            | Returned l => l
            | Threw _ => messages s
            end
        end
    end.
Proof.
  intros Hs. open_send s Hs; outcome_cases; simpl; refresh_cases;
    first [reflexivity|congruence].
Qed.

Lemma send_in_flight_A (s : State) :
  sendable s ->
  Forall (fun st =>
            input st = [] /\
            pendingUserInput st = input s /\
            messages st = messages s /\
            error st = [])
    (snapshots (send_log env s)) /\
  pendingUserInput (after_send env s) = [].
Proof.
  intros Hs. open_send s Hs; outcome_cases; simpl; refresh_cases;
    (split; [repeat constructor|reflexivity]).
Qed.

Lemma create_failed_A (s : State) (e : Error) :
  sendable s -> target env s = Threw e ->
  numbered (send_log env s) = [(0%nat, POST_conversations (firstn 50 (input s)))] /\
  currentConversation (after_send env s) = None /\
  messages (after_send env s) = messages s /\
  input (after_send env s) = input s.
Proof.
  intros Hs Ht.
  rewrite (FactsA.send_numbered_A env s Hs), (send_selection_A s Hs),
    (send_messages_A s Hs), (send_input_A s Hs).
  unfold send_requests. rewrite Ht. unfold target in Ht.
  destruct (currentConversation s); [discriminate|].
  unfold new_title. rewrite substring_prefix. auto.
Qed.

(** The list of conversations once the refresh a send started has
    settled, whether it settled during the send or after it. *)
Lemma send_sidebar_A (s : State) (c : Conversation.t) :
  sendable s -> currentConversation s = None -> target env s = Returned c ->
  conversations (w_state (settle env [0%nat] (snd (send env s))))
  = match parsed (respond env 1 GET_conversations) with
    | Some l => l
    | None => conversations s
    end.
Proof.
  intros Hs Hn Ht. open_send s Hs; [discriminate|].
  rewrite Ht. await_cases; outcome_cases;
    try rewrite settle_pending_refresh; try rewrite settle_nothing_pending;
    simpl; unfold parsed;
    destruct (respond env 1 GET_conversations) as [?|[? ? [?|?]]]; reflexivity.
Qed.

Lemma send_sidebar_selected_A (s : State) :
  sendable s -> currentConversation s <> None ->
  w_pool (snd (send env s)) = [] /\
  conversations (after_send env s) = conversations s.
Proof.
  intros Hs Hn. open_send s Hs; [|contradiction].
  outcome_cases; split; reflexivity.
Qed.

(** *** Composing actions *)

Lemma new_chat_welcome_A (w : World State) :
  isLoading (w_state w) = false ->
  showsWelcome (w_state (snd (run env handleNewChat w))) = true.
Proof.
  intros H. rewrite FactsA.run_handleNewChat_A. unfold showsWelcome. simpl.
  rewrite H. reflexivity.
Qed.

Lemma new_chat_then_send_A (env' : Env) (s : State) (t : jsstring) :
  isLoading s = false -> truthy (trim t) = true ->
  let s1 := w_state (snd (run env handleNewChat (init_world s))) in
  let s2 := w_state (snd (run env (onChange t) (init_world s1))) in
  hd_error (requests (send_log env' s2))
  = Some (POST_conversations (firstn 50 t)).
Proof.
  intros Hl Ht s1 s2.
  apply (FactsA.send_title_A env' s2); [split|]; simpl; assumption || reflexivity.
Qed.

Lemma next_send_A (env' : Env) (s : State) (c : Conversation.t) (t : jsstring) :
  sendable s -> target env s = Returned c -> truthy (trim t) = true ->
  let s2 := w_state (snd (run env (onChange t) (init_world (after_send env s)))) in
  hd_error (numbered (send_log env' s2))
  = Some (0%nat, POST_messages (Conversation.id c) t).
Proof.
  intros Hs Ht Hn s2.
  assert (Hc : currentConversation s2 = Some c).
  { unfold s2. simpl. rewrite (send_selection_A s Hs), Ht. reflexivity. }
  assert (Hs2 : sendable s2).
  { split; [exact Hn|]. unfold s2. simpl.
    exact (proj2 (proj2 (FactsA.send_loading_A env s Hs))). }
  rewrite (FactsA.send_numbered_A env' s2 Hs2). unfold send_requests, post_no.
  rewrite Hc. reflexivity.
Qed.

(** *** Mounting *)

Lemma onMount_A (s : State) :
  let w := snd (run env onMount (init_world s)) in
  fst (run env onMount (init_world s)) = Returned tt /\
  w_state w = s /\
  w_log w = [EvRequest 0 GET_conversations s] /\
  w_state (settle env [0%nat] w)
  = refreshed setConversations (respond env 0 GET_conversations) s.
Proof.
  unfold onMount, fetchConversations. simpl. await_cases.
  rewrite settle_pending_refresh. auto.
Qed.

End WithEnv.
End MoreA.

(** ** Second variant, continued *)

Module MoreB.
Import VariantB RunB.

Section WithEnv.

Variable env : Env.

Ltac open_send s Hs :=
  unfold after_send, send_log, send, target, reply, post_no, new_title in *;
  let c := fresh "c0" in
  let Hc := fresh "Hc" in
  destruct (currentConversation s) as [c|] eqn:Hc;
  [ rewrite (FactsB.handleSend_selected_B env s c _ Hs Hc)
  | rewrite (FactsB.handleSend_fresh_B env s _ Hs Hc) ];
  unfold send_to, fail_send, begin_send, fetchConversations, push; await_cases.

Ltac outcome_cases :=
  repeat (match goal with
          | |- context [sent ?x] => destruct (sent x)
          | |- context [created ?x] => destruct (created x)
          end; await_cases).

Lemma sendDisabled_sendable_B (s : State) :
  sendDisabled s = false <-> sendable s.
Proof.
  unfold sendDisabled, sendable. rewrite orb_false_iff, negb_false_iff. tauto.
Qed.

Lemma sendDisabled_blank_or_loading_B (s : State) :
  sendDisabled s = true <->
  forallb is_white_space (input s) = true \/ isLoading s = true.
Proof.
  unfold sendDisabled. rewrite orb_true_iff, negb_true_iff, blank_iff. tauto.
Qed.

Lemma handleSend_disabled_B (s : State) (w : World State) :
  sendDisabled s = true -> run env (handleSend s) w = (Returned tt, w).
Proof.
  unfold sendDisabled, handleSend. intros ->. reflexivity.
Qed.

Lemma send_log_nil_B (s : State) :
  send_log env s = [] <-> sendDisabled s = true.
Proof.
  split.
  - intros H. destruct (sendDisabled s) eqn:E; [reflexivity|].
    apply sendDisabled_sendable_B in E.
    pose proof (FactsB.send_numbered_B env s E) as N.
    rewrite H in N. simpl in N. unfold send_requests in N.
    destruct (currentConversation s); discriminate.
  - intros H. unfold send_log, send. rewrite (handleSend_disabled_B s _ H).
    reflexivity.
Qed.

Lemma handleKeyDown_enter_B (s : State) (w : World State) :
  run env (handleKeyDown s (lit "Enter") false) w = run env (handleSend s) w.
Proof.
  unfold handleKeyDown. simpl. destruct (isLoading s) eqn:E; [|reflexivity].
  simpl. symmetry. apply handleSend_disabled_B. unfold sendDisabled.
  rewrite E. apply orb_true_r.
Qed.

Lemma handleKeyDown_other_B (s : State) (key : jsstring) (shiftKey : bool)
      (w : World State) :
  key <> lit "Enter" \/ shiftKey = true \/ isLoading s = true ->
  run env (handleKeyDown s key shiftKey) w = (Returned tt, w).
Proof.
  intros H. unfold handleKeyDown.
  destruct (str_eqb key (lit "Enter")) eqn:E; [|reflexivity].
  apply str_eqb_eq in E.
  destruct shiftKey; [reflexivity|].
  destruct (isLoading s); [reflexivity|].
  destruct H as [H|[H|H]]; [contradiction|discriminate|discriminate].
Qed.

Lemma locked_B (st : State) : isLoading st = true -> locked st.
Proof.
  intros H.
  assert (D : sendDisabled st = true).
  { unfold sendDisabled. rewrite H. apply orb_true_r. }
  unfold locked, newChatDisabled, textareaDisabled.
  repeat split; try assumption.
  - intros env' w. unfold handleSend. unfold sendDisabled in D. rewrite D.
    reflexivity.
  - intros env' key shiftKey w. unfold handleKeyDown. rewrite H.
    rewrite andb_false_r. reflexivity.
  - intros env' id w. unfold onConversationClick. rewrite H. reflexivity.
Qed.

Lemma send_locks_B (s : State) :
  sendable s -> Forall locked (snapshots (send_log env s)).
Proof.
  intros Hs. destruct (FactsB.send_loading_B env s Hs) as [F _].
  eapply Forall_impl; [|exact F]. intros st. exact (locked_B st).
Qed.

(** *** Selecting a conversation *)

Lemma select_summary_B (s : State) (id : Z) :
  fst (select env s id) = Returned tt /\
  numbered (w_log (snd (select env s id))) = [(0%nat, GET_messages id)] /\
  Forall (fun st =>
            isLoading st = isLoading s /\
            currentConversation st
            = find (fun c => Conversation.id c =? id) (conversations s))
    (snapshots (w_log (snd (select env s id)))) /\
  currentConversation (after_select env s id)
  = find (fun c => Conversation.id c =? id) (conversations s) /\
  isLoading (after_select env s id) = isLoading s /\
  input (after_select env s id) = input s /\
  conversations (after_select env s id) = conversations s.
Proof.
  unfold after_select, select. rewrite FactsB.run_handleConversationClick_B.
  unfold loaded. await_cases.
  destruct (respond env 0 (GET_messages id)) as [?|[? ? [?|?]]]; simpl;
    repeat split; repeat constructor.
Qed.

(** *** After a send *)

Lemma send_thread_B (s : State) :
  sendable s ->
  messages (after_send env s)
  = messages s
      ++ [tempUserMessage env s 0;
          match target env s with
          | Threw e => errorMessage env s 2 e
          | Returned c =>
              match reply env s c with
              | Threw e => errorMessage env s 2 e
              | Returned aiResponse => aiResponse
              end
          end].
Proof.
  intros Hs. open_send s Hs; outcome_cases; simpl; refresh_cases;
    rewrite <- app_assoc; reflexivity.
Qed.

Lemma send_input_B (s : State) :
  sendable s -> input (after_send env s) = [].
Proof.
  intros Hs. open_send s Hs; outcome_cases; simpl; refresh_cases; reflexivity.
Qed.

Lemma send_selection_B (s : State) :
  sendable s ->
  currentConversation (after_send env s)
  = match target env s with
    | Threw _ => None
    | Returned c => Some c
    end.
Proof.
  intros Hs. open_send s Hs; outcome_cases; simpl; refresh_cases;
    first [reflexivity|congruence].
Qed.

Lemma send_in_flight_B (s : State) :
  sendable s ->
  Forall (fun st =>
            input st = [] /\
            messages st = messages s ++ [tempUserMessage env s 0])
    (snapshots (send_log env s)).
Proof.
  intros Hs. open_send s Hs; outcome_cases; simpl; refresh_cases;
    repeat constructor.
Qed.

Lemma send_never_welcome_B (s : State) :
  sendable s -> showsWelcome (after_send env s) = false.
Proof.
  intros Hs. unfold showsWelcome. rewrite (send_thread_B s Hs).
  rewrite length_app. simpl.
  destruct (List.length (messages s) + 2)%nat eqn:E; [lia|reflexivity].
Qed.

Lemma send_ids_B (s : State) (e : Error) :
  clock env 0 Date_now <= clock env 2 Date_now ->
  Message.id (tempUserMessage env s 0) <> Message.id (errorMessage env s 2 e).
Proof. unfold tempUserMessage, errorMessage. simpl. lia. Qed.

Lemma create_failed_B (s : State) (e : Error) :
  sendable s -> target env s = Threw e ->
  numbered (send_log env s) = [(0%nat, POST_conversations (lit "Conversation"))] /\
  currentConversation (after_send env s) = None /\
  messages (after_send env s)
  = messages s ++ [tempUserMessage env s 0; errorMessage env s 2 e].
Proof.
  intros Hs Ht.
  rewrite (FactsB.send_numbered_B env s Hs), (send_selection_B s Hs),
    (send_thread_B s Hs).
  unfold send_requests. rewrite Ht. unfold target in Ht.
  destruct (currentConversation s); [discriminate|]. auto.
Qed.

(** The list of conversations once the refresh a send started has
    settled, whether it settled during the send or after it. *)
Lemma send_sidebar_B (s : State) (c : Conversation.t) :
  sendable s -> currentConversation s = None -> target env s = Returned c ->
  conversations (w_state (settle env [0%nat] (snd (send env s))))
  = match parsed (respond env 1 GET_conversations) with
    | Some l => l
    | None => conversations s
    end.
Proof.
  intros Hs Hn Ht. open_send s Hs; [discriminate|].
  rewrite Ht. await_cases; outcome_cases;
    try rewrite settle_pending_refresh; try rewrite settle_nothing_pending;
    simpl; unfold parsed;
    destruct (respond env 1 GET_conversations) as [?|[? ? [?|?]]]; reflexivity.
Qed.

Lemma send_sidebar_selected_B (s : State) :
  sendable s -> currentConversation s <> None ->
  w_pool (snd (send env s)) = [] /\
  conversations (after_send env s) = conversations s.
Proof.
  intros Hs Hn. open_send s Hs; [|contradiction].
  outcome_cases; split; reflexivity.
Qed.

(** *** Composing actions *)

Lemma new_chat_welcome_B (w : World State) :
  isLoading (w_state w) = false ->
  showsWelcome (w_state (snd (run env handleNewChat w))) = true.
Proof.
  intros H. rewrite FactsB.run_handleNewChat_B. unfold showsWelcome. simpl.
  rewrite H. reflexivity.
Qed.

Lemma new_chat_then_send_B (env' : Env) (s : State) (t : jsstring) :
  isLoading s = false -> truthy (trim t) = true ->
  let s1 := w_state (snd (run env handleNewChat (init_world s))) in
  let s2 := w_state (snd (run env (onChange t) (init_world s1))) in
  hd_error (requests (send_log env' s2))
  = Some (POST_conversations (lit "Conversation")).
Proof.
  intros Hl Ht s1 s2.
  apply (FactsB.send_title_B env' s2); [split|]; simpl; assumption || reflexivity.
Qed.

Lemma next_send_B (env' : Env) (s : State) (c : Conversation.t) (t : jsstring) :
  sendable s -> target env s = Returned c -> truthy (trim t) = true ->
  let s2 := w_state (snd (run env (onChange t) (init_world (after_send env s)))) in
  hd_error (numbered (send_log env' s2))
  = Some (0%nat, POST_messages (Conversation.id c) t).
Proof.
  intros Hs Ht Hn s2.
  assert (Hc : currentConversation s2 = Some c).
  { unfold s2. simpl. rewrite (send_selection_B s Hs), Ht. reflexivity. }
  assert (Hs2 : sendable s2).
  { split; [exact Hn|]. unfold s2. simpl.
    exact (proj2 (proj2 (FactsB.send_loading_B env s Hs))). }
  rewrite (FactsB.send_numbered_B env' s2 Hs2). unfold send_requests, post_no.
  rewrite Hc. reflexivity.
Qed.

(** *** Mounting *)

Lemma onMount_B (s : State) :
  let w := snd (run env onMount (init_world s)) in
  fst (run env onMount (init_world s)) = Returned tt /\
  w_state w = s /\
  w_log w = [EvRequest 0 GET_conversations s] /\
  w_state (settle env [0%nat] w)
  = refreshed setConversations (respond env 0 GET_conversations) s.
Proof.
  unfold onMount, fetchConversations. simpl. await_cases.
  rewrite settle_pending_refresh. auto.
Qed.

End WithEnv.
End MoreB.

(** ** Both variants *)

(** X1: a send does nothing, leaving the world as it was, exactly when
    the Send button is disabled, that is when the input is empty or white
    space only or a send is in progress; otherwise at least one request
    leaves. *)
Theorem X1_send_guard (env : Env) :
  (forall s : VariantA.State,
      (RunA.send env s = (Returned tt, init_world s) <->
       VariantA.sendDisabled s = true) /\
      (RunA.send_log env s = [] <-> VariantA.sendDisabled s = true) /\
      (VariantA.sendDisabled s = true <->
       forallb is_white_space (VariantA.input s) = true \/
       VariantA.isLoading s = true)) /\
  (forall s : VariantB.State,
      (RunB.send env s = (Returned tt, init_world s) <->
       VariantB.sendDisabled s = true) /\
      (RunB.send_log env s = [] <-> VariantB.sendDisabled s = true) /\
      (VariantB.sendDisabled s = true <->
       forallb is_white_space (VariantB.input s) = true \/
       VariantB.isLoading s = true)).
Proof.
  split; intros s.
  - split; [|split].
    + split.
      * intros H. apply (MoreA.send_log_nil_A env). unfold RunA.send_log.
        rewrite H. reflexivity.
      * intros H. exact (MoreA.handleSend_disabled_A env s _ H).
    + exact (MoreA.send_log_nil_A env s).
    + exact (MoreA.sendDisabled_blank_or_loading_A s).
  - split; [|split].
    + split.
      * intros H. apply (MoreB.send_log_nil_B env). unfold RunB.send_log.
        rewrite H. reflexivity.
      * intros H. exact (MoreB.handleSend_disabled_B env s _ H).
    + exact (MoreB.send_log_nil_B env s).
    + exact (MoreB.sendDisabled_blank_or_loading_B s).
Qed.

(** X2: the Enter key without Shift does exactly what [handleSend] does;
    any other key, Enter with Shift, and any key while a send is in
    progress leave the world as it was. *)
Theorem X2_enter_key (env : Env) :
  (forall (s : VariantA.State) (w : World VariantA.State),
      run env (VariantA.handleKeyDown s (lit "Enter") false) w
      = run env (VariantA.handleSend s) w) /\
  (forall (s : VariantA.State) (key : jsstring) (shiftKey : bool)
          (w : World VariantA.State),
      key <> lit "Enter" \/ shiftKey = true \/ VariantA.isLoading s = true ->
      run env (VariantA.handleKeyDown s key shiftKey) w = (Returned tt, w)) /\
  (forall (s : VariantB.State) (w : World VariantB.State),
      run env (VariantB.handleKeyDown s (lit "Enter") false) w
      = run env (VariantB.handleSend s) w) /\
  (forall (s : VariantB.State) (key : jsstring) (shiftKey : bool)
          (w : World VariantB.State),
      key <> lit "Enter" \/ shiftKey = true \/ VariantB.isLoading s = true ->
      run env (VariantB.handleKeyDown s key shiftKey) w = (Returned tt, w)).
Proof.
  split; [|split; [|split]].
  - exact (MoreA.handleKeyDown_enter_A env).
  - exact (MoreA.handleKeyDown_other_A env).
  - exact (MoreB.handleKeyDown_enter_B env).
  - exact (MoreB.handleKeyDown_other_B env).
Qed.

Lemma X2_enter_key_witness :
  run backend_up (VariantA.handleKeyDown open_A (lit "Enter") true) (init_world open_A)
  = (Returned tt, init_world open_A).
Proof.
  apply (proj1 (proj2 (X2_enter_key backend_up))).
  right. left. reflexivity.
Defined.

(** X3: in every state in which a request of a send leaves, the Send
    button, the New Chat button and the textarea are disabled, and
    [handleSend], [handleKeyDown] and a click on a conversation do
    nothing: no second action can start while the send is in flight. *)
Theorem X3_controls_locked_during_send (env : Env) :
  (forall s : VariantA.State,
      RunA.sendable s ->
      Forall RunA.locked (snapshots (RunA.send_log env s))) /\
  (forall s : VariantB.State,
      RunB.sendable s ->
      Forall RunB.locked (snapshots (RunB.send_log env s))).
Proof.
  split; intros s Hs.
  - exact (MoreA.send_locks_A env s Hs).
  - exact (MoreB.send_locks_B env s Hs).
Qed.

Lemma X3_controls_locked_during_send_witness :
  Forall RunA.locked (snapshots (RunA.send_log backend_up fresh_A)).
Proof.
  apply (proj1 (X3_controls_locked_during_send backend_up) fresh_A).
  split; reflexivity.
Defined.

(** X4: [fetchConversations] never throws and sends one request; when
    the body of the response parses, whatever the status, the list of
    conversations is replaced by it and nothing else changes; on a
    network failure or a body that does not parse the state is left as it
    was. *)
Theorem X4_fetchConversations (env : Env) :
  (forall s : VariantA.State,
      let r := run env VariantA.fetchConversations (init_world s) in
      fst r = Returned tt /\
      numbered (w_log (snd r)) = [(0%nat, GET_conversations)] /\
      w_state (snd r)
      = match parsed (respond env 0 GET_conversations) with
        | Some l => VariantA.setConversations l s
        | None => s
        end) /\
  (forall s : VariantB.State,
      let r := run env VariantB.fetchConversations (init_world s) in
      fst r = Returned tt /\
      numbered (w_log (snd r)) = [(0%nat, GET_conversations)] /\
      w_state (snd r)
      = match parsed (respond env 0 GET_conversations) with
        | Some l => VariantB.setConversations l s
        | None => s
        end).
Proof.
  split; intros s r; unfold r;
    [unfold VariantA.fetchConversations|unfold VariantB.fetchConversations];
    rewrite run_fetchConversations; await_cases; unfold parsed;
    destruct (respond env 0 GET_conversations) as [?|[? ? [?|?]]];
    repeat split.
Qed.

(** X5: mounting the component returns at once, with the state unchanged
    and the request for the list of conversations outstanding; when its
    response arrives the list is replaced as [fetchConversations] does. *)
Theorem X5_mount (env : Env) :
  (forall s : VariantA.State,
      let w := snd (run env VariantA.onMount (init_world s)) in
      fst (run env VariantA.onMount (init_world s)) = Returned tt /\
      w_state w = s /\
      w_log w = [EvRequest 0 GET_conversations s] /\
      w_state (settle env [0%nat] w)
      = match parsed (respond env 0 GET_conversations) with
        | Some l => VariantA.setConversations l s
        | None => s
        end) /\
  (forall s : VariantB.State,
      let w := snd (run env VariantB.onMount (init_world s)) in
      fst (run env VariantB.onMount (init_world s)) = Returned tt /\
      w_state w = s /\
      w_log w = [EvRequest 0 GET_conversations s] /\
      w_state (settle env [0%nat] w)
      = match parsed (respond env 0 GET_conversations) with
        | Some l => VariantB.setConversations l s
        | None => s
        end).
Proof.
  split; intros s w.
  - destruct (MoreA.onMount_A env s) as [H1 [H2 [H3 H4]]].
    repeat split; try assumption. unfold w. rewrite H4. unfold parsed.
    destruct (respond env 0 GET_conversations) as [?|[? ? [?|?]]]; reflexivity.
  - destruct (MoreB.onMount_B env s) as [H1 [H2 [H3 H4]]].
    repeat split; try assumption. unfold w. rewrite H4. unfold parsed.
    destruct (respond env 0 GET_conversations) as [?|[? ? [?|?]]]; reflexivity.
Qed.

(** X6: a click on a conversation selects the first conversation of the
    rendered list with the clicked id, before the messages are fetched
    and whatever becomes of the fetch; for an id of the list the selected
    conversation has that id and its item is highlighted, for an id
    outside the list no conversation is selected. *)
Theorem X6_click_selects (env : Env) :
  (forall (s : VariantA.State) (c : Conversation.t),
      In c (VariantA.conversations s) ->
      exists c',
        VariantA.currentConversation (RunA.after_select env s (Conversation.id c))
        = Some c' /\
        Conversation.id c' = Conversation.id c /\
        In c' (VariantA.conversations s) /\
        VariantA.highlighted (RunA.after_select env s (Conversation.id c)) c = true) /\
  (forall (s : VariantA.State) (id : Z),
      (forall c, In c (VariantA.conversations s) -> Conversation.id c <> id) ->
      VariantA.currentConversation (RunA.after_select env s id) = None) /\
  (forall (s : VariantB.State) (c : Conversation.t),
      In c (VariantB.conversations s) ->
      exists c',
        VariantB.currentConversation (RunB.after_select env s (Conversation.id c))
        = Some c' /\
        Conversation.id c' = Conversation.id c /\
        In c' (VariantB.conversations s) /\
        VariantB.highlighted (RunB.after_select env s (Conversation.id c)) c = true) /\
  (forall (s : VariantB.State) (id : Z),
      (forall c, In c (VariantB.conversations s) -> Conversation.id c <> id) ->
      VariantB.currentConversation (RunB.after_select env s id) = None).
Proof.
  split; [|split; [|split]].
  - intros s c Hc.
    destruct (MoreA.select_summary_A env s (Conversation.id c))
      as [_ [_ [_ [E _]]]].
    destruct (find_by_id _ c Hc) as [c' [F [I J]]].
    exists c'. unfold VariantA.highlighted. rewrite E, F, I, Z.eqb_refl. auto.
  - intros s id H.
    destruct (MoreA.select_summary_A env s id) as [_ [_ [_ [E _]]]].
    rewrite E. exact (find_by_id_none _ id H).
  - intros s c Hc.
    destruct (MoreB.select_summary_B env s (Conversation.id c))
      as [_ [_ [_ [E _]]]].
    destruct (find_by_id _ c Hc) as [c' [F [I J]]].
    exists c'. unfold VariantB.highlighted. rewrite E, F, I, Z.eqb_refl. auto.
  - intros s id H.
    destruct (MoreB.select_summary_B env s id) as [_ [_ [_ [E _]]]].
    rewrite E. exact (find_by_id_none _ id H).
Qed.

Lemma X6_click_selects_witness :
  exists c',
    VariantA.currentConversation (RunA.after_select backend_unreachable open_A 1)
    = Some c' /\
    Conversation.id c' = 1 /\
    In c' (VariantA.conversations open_A) /\
    VariantA.highlighted (RunA.after_select backend_unreachable open_A 1) c1 = true.
Proof.
  apply (proj1 (X6_click_selects backend_unreachable) open_A c1).
  left. reflexivity.
Defined.

(** X7: a click on a conversation completes after exactly one request,
    the fetch of the messages of the clicked id, and changes neither the
    input nor the list of conversations.  In the first variant the state
    is loading while the request is outstanding and idle afterwards, and
    the error is never "Failed to load conversation" (the [catch] of the
    handler is unreachable); in the second variant the loading flag is
    left as it was. *)
Theorem X7_click_request (env : Env) :
  (forall (s : VariantA.State) (id : Z),
      fst (RunA.select env s id) = Returned tt /\
      numbered (w_log (snd (RunA.select env s id))) = [(0%nat, GET_messages id)] /\
      Forall (fun st =>
                VariantA.isLoading st = true /\
                VariantA.currentConversation st
                = find (fun c => Conversation.id c =? id) (VariantA.conversations s))
        (snapshots (w_log (snd (RunA.select env s id)))) /\
      VariantA.currentConversation (RunA.after_select env s id)
      = find (fun c => Conversation.id c =? id) (VariantA.conversations s) /\
      VariantA.isLoading (RunA.after_select env s id) = false /\
      VariantA.input (RunA.after_select env s id) = VariantA.input s /\
      VariantA.conversations (RunA.after_select env s id) = VariantA.conversations s /\
      VariantA.error (RunA.after_select env s id) <> lit "Failed to load conversation") /\
  (forall (s : VariantB.State) (id : Z),
      fst (RunB.select env s id) = Returned tt /\
      numbered (w_log (snd (RunB.select env s id))) = [(0%nat, GET_messages id)] /\
      Forall (fun st =>
                VariantB.isLoading st = VariantB.isLoading s /\
                VariantB.currentConversation st
                = find (fun c => Conversation.id c =? id) (VariantB.conversations s))
        (snapshots (w_log (snd (RunB.select env s id)))) /\
      VariantB.currentConversation (RunB.after_select env s id)
      = find (fun c => Conversation.id c =? id) (VariantB.conversations s) /\
      VariantB.isLoading (RunB.after_select env s id) = VariantB.isLoading s /\
      VariantB.input (RunB.after_select env s id) = VariantB.input s /\
      VariantB.conversations (RunB.after_select env s id) = VariantB.conversations s).
Proof.
  split; intros s id.
  - exact (MoreA.select_summary_A env s id).
  - exact (MoreB.select_summary_B env s id).
Qed.

(** ** After a send *)

(** X8: after a send of the first variant the error is empty exactly
    when the conversation was there or created, the message was accepted
    and the refetch succeeded; it is "Failed to load messages" when only
    the refetch failed, and "Failed to send message: " followed by the
    message of the exception (or "Please try again" when that is empty)
    when creating the conversation or sending the message threw. *)
Theorem X8_error_after_send (env : Env) (s : VariantA.State) :
  RunA.sendable s ->
  VariantA.error (RunA.after_send env s)
  = match RunA.target env s with
    | Threw e =>
        lit "Failed to send message: " ++ or_else (message e) (lit "Please try again")
    | Returned c =>
        match RunA.reply env s c with
        | Threw e =>
            lit "Failed to send message: "
              ++ or_else (message e) (lit "Please try again")
        | Returned _ =>
            match RunA.refetch env s c with
            | Returned _ => []
            | Threw _ => lit "Failed to load messages"
            end
        end
    end /\
  (VariantA.showsError (RunA.after_send env s) = false <->
   exists c ai l,
     RunA.target env s = Returned c /\
     RunA.reply env s c = Returned ai /\
     RunA.refetch env s c = Returned l).
Proof.
  intros Hs. split; [exact (MoreA.send_error_A env s Hs)|].
  unfold VariantA.showsError. rewrite (MoreA.send_error_A env s Hs).
  destruct (RunA.target env s) as [c|e] eqn:Ht.
  - destruct (RunA.reply env s c) as [ai|e] eqn:Hr.
    + destruct (RunA.refetch env s c) as [l|e] eqn:Hf.
      * split; [intros _; exists c, ai, l; auto|reflexivity].
      * split; [discriminate|]. intros [c' [ai' [l' [H1 [_ H3]]]]].
        injection H1 as <-. rewrite Hf in H3. discriminate.
    + split; [discriminate|]. intros [c' [ai' [l' [H1 [H2 _]]]]].
      injection H1 as <-. rewrite Hr in H2. discriminate.
  - split; [discriminate|]. intros [c' [ai' [l' [H _]]]]. discriminate.
Qed.

Lemma X8_error_after_send_witness :
  VariantA.showsError (RunA.after_send backend_up open_A) = false.
Proof.
  apply (proj2 (X8_error_after_send backend_up open_A (conj eq_refl eq_refl))).
  exists c1, m_reply, [m_user; m_ai; m_sent; m_reply]. repeat split.
Defined.

(** X9: when the backend rejects the message with a status outside
    200-299, the first variant's error reads "Failed to send message: "
    twice, then the status, " - " and the text of the response (the
    handler prefixes the message that [createMessage] has already
    prefixed); the second variant's error notice reads "Error: Failed to
    send message: ", the status, " - " and the text. *)
Theorem X9_rejected_message_text (env : Env) :
  (forall (s : VariantA.State) (c : Conversation.t) (resp : Response Message.t),
      RunA.sendable s ->
      RunA.target env s = Returned c ->
      respond env (RunA.post_no s)
        (POST_messages (Conversation.id c) (VariantA.input s)) = Responded resp ->
      ok resp = false ->
      VariantA.error (RunA.after_send env s)
      = lit "Failed to send message: Failed to send message: "
          ++ of_number (status resp) ++ lit " - " ++ body_text resp) /\
  (forall (s : VariantB.State) (c : Conversation.t) (resp : Response Message.t),
      RunB.sendable s ->
      RunB.target env s = Returned c ->
      respond env (RunB.post_no s)
        (POST_messages (Conversation.id c) (VariantB.input s)) = Responded resp ->
      ok resp = false ->
      map Message.content (skipn (List.length (VariantB.messages s))
                             (VariantB.messages (RunB.after_send env s)))
      = [VariantB.input s;
         lit "Error: Failed to send message: "
           ++ of_number (status resp) ++ lit " - " ++ body_text resp]).
Proof.
  split; intros s c resp Hs Ht Hx Hok.
  - rewrite (MoreA.send_error_A env s Hs), Ht. unfold RunA.reply.
    rewrite Hx, (sent_unsuccessful resp Hok). reflexivity.
  - rewrite (MoreB.send_thread_B env s Hs), Ht. unfold RunB.reply.
    rewrite Hx, (sent_unsuccessful resp Hok).
    rewrite skipn_app, skipn_all, Nat.sub_diag. reflexivity.
Qed.

Lemma X9_rejected_message_text_witness :
  VariantA.error (RunA.after_send backend_rejects_message open_A)
  = lit "Failed to send message: Failed to send message: 500 - boom".
Proof.
  apply (proj1 (X9_rejected_message_text backend_rejects_message)
           open_A c1 server_error);
    first [split; reflexivity|reflexivity].
Defined.

(** X10: in the first variant the input stays empty after a send whose
    message was accepted, also when the refetch then failed, and is
    restored when the conversation could not be created; in the second
    variant the input is empty after every send. *)
Theorem X10_input_after_send (env : Env) :
  (forall (s : VariantA.State) (c : Conversation.t) (ai : Message.t),
      RunA.sendable s ->
      RunA.target env s = Returned c ->
      RunA.reply env s c = Returned ai ->
      VariantA.input (RunA.after_send env s) = []) /\
  (forall (s : VariantA.State) (e : Error),
      RunA.sendable s ->
      RunA.target env s = Threw e ->
      VariantA.input (RunA.after_send env s) = VariantA.input s) /\
  (forall s : VariantB.State,
      RunB.sendable s ->
      VariantB.input (RunB.after_send env s) = []).
Proof.
  split; [|split].
  - intros s c ai Hs Ht Hr. rewrite (MoreA.send_input_A env s Hs), Ht, Hr.
    reflexivity.
  - intros s e Hs Ht. rewrite (MoreA.send_input_A env s Hs), Ht. reflexivity.
  - intros s Hs. exact (MoreB.send_input_B env s Hs).
Qed.

Lemma X10_input_after_send_witness :
  VariantA.input (RunA.after_send backend_unreachable open_A) = [].
Proof.
  apply (proj1 (X10_input_after_send backend_unreachable) open_A c1 m_reply).
  - split; reflexivity.
  - reflexivity.
  - reflexivity.
Defined.

(** X11: when creating the conversation fails (network failure or a
    body that does not parse), the send stops there: the create request
    is its only request, no message is sent and no conversation is
    selected afterwards.  The first variant leaves the thread as it was;
    the second has appended the optimistic message and an error notice. *)
Theorem X11_conversation_not_created (env : Env) :
  (forall (s : VariantA.State) (e : Error),
      RunA.sendable s ->
      RunA.target env s = Threw e ->
      numbered (RunA.send_log env s)
      = [(0%nat, POST_conversations (firstn 50 (VariantA.input s)))] /\
      VariantA.currentConversation (RunA.after_send env s) = None /\
      VariantA.messages (RunA.after_send env s) = VariantA.messages s /\
      VariantA.input (RunA.after_send env s) = VariantA.input s) /\
  (forall (s : VariantB.State) (e : Error),
      RunB.sendable s ->
      RunB.target env s = Threw e ->
      numbered (RunB.send_log env s)
      = [(0%nat, POST_conversations (lit "Conversation"))] /\
      VariantB.currentConversation (RunB.after_send env s) = None /\
      VariantB.messages (RunB.after_send env s)
      = VariantB.messages s
          ++ [RunB.tempUserMessage env s 0; RunB.errorMessage env s 2 e]).
Proof.
  split; intros s e Hs Ht.
  - exact (MoreA.create_failed_A env s e Hs Ht).
  - exact (MoreB.create_failed_B env s e Hs Ht).
Qed.

(** X12: a send of the second variant that starts while no other
    request is outstanding leaves the thread two messages longer,
    however it ends: the prior thread, then the optimistic message (role
    [user], the submitted text, built before any request), then the reply
    of the backend when the message was accepted and otherwise an error
    notice with role [assistant].  A send that starts while the request
    of a click is outstanding is not covered: the response of the click
    can replace the thread in between (see [send_during_click_B]). *)
Theorem X12_optimistic_thread (env : Env) (s : VariantB.State) :
  RunB.sendable s ->
  VariantB.messages (RunB.after_send env s)
  = VariantB.messages s
      ++ [RunB.tempUserMessage env s 0;
          match RunB.target env s with
          | Threw e => RunB.errorMessage env s 2 e
          | Returned c =>
              match RunB.reply env s c with
              | Threw e => RunB.errorMessage env s 2 e
              | Returned aiResponse => aiResponse
              end
          end] /\
  List.length (VariantB.messages (RunB.after_send env s))
  = (List.length (VariantB.messages s) + 2)%nat /\
  Message.role (RunB.tempUserMessage env s 0) = user /\
  Message.content (RunB.tempUserMessage env s 0) = VariantB.input s /\
  (forall e, Message.role (RunB.errorMessage env s 2 e) = assistant) /\
  Forall (fun st =>
            VariantB.messages st
            = VariantB.messages s ++ [RunB.tempUserMessage env s 0])
    (snapshots (RunB.send_log env s)).
Proof.
  intros Hs. rewrite (MoreB.send_thread_B env s Hs).
  split; [reflexivity|]. split; [rewrite length_app; reflexivity|].
  split; [reflexivity|]. split; [reflexivity|]. split; [reflexivity|].
  eapply Forall_impl; [|exact (MoreB.send_in_flight_B env s Hs)].
  intros st [_ H]. exact H.
Qed.

Lemma X12_optimistic_thread_witness :
  List.length (VariantB.messages (RunB.after_send backend_rejects_message open_B))
  = (List.length (VariantB.messages open_B) + 2)%nat.
Proof.
  apply (proj1 (proj2 (X12_optimistic_thread backend_rejects_message open_B
                         (conj eq_refl eq_refl)))).
Defined.

(** X13: when a send of the second variant that starts while no other
    request is outstanding fails, be it at creating the conversation or
    at sending the message, the messages it appends are the optimistic
    message and the error notice, and if the clock has not gone backwards
    between the two reads of [Date.now()] the two have different ids (the
    second is the later time plus one). *)
Theorem X13_distinct_ids (env : Env) (s : VariantB.State) (e : Error) :
  RunB.sendable s ->
  RunB.target env s = Threw e \/
  (exists c, RunB.target env s = Returned c /\ RunB.reply env s c = Threw e) ->
  clock env 0 Date_now <= clock env 2 Date_now ->
  skipn (List.length (VariantB.messages s))
    (VariantB.messages (RunB.after_send env s))
  = [RunB.tempUserMessage env s 0; RunB.errorMessage env s 2 e] /\
  NoDup (map Message.id
           (skipn (List.length (VariantB.messages s))
              (VariantB.messages (RunB.after_send env s)))).
Proof.
  intros Hs Hfail Hclock.
  assert (E : skipn (List.length (VariantB.messages s))
                (VariantB.messages (RunB.after_send env s))
              = [RunB.tempUserMessage env s 0; RunB.errorMessage env s 2 e]).
  { rewrite (MoreB.send_thread_B env s Hs).
    rewrite skipn_app, skipn_all, Nat.sub_diag. simpl.
    destruct Hfail as [Ht|[c [Ht Hr]]]; rewrite Ht; [|rewrite Hr]; reflexivity. }
  rewrite E. split; [reflexivity|]. simpl.
  constructor; [|constructor; [intros []|constructor]].
  intros [H|[]]. exact (MoreB.send_ids_B env s e Hclock (eq_sym H)).
Qed.

Lemma X13_distinct_ids_witness :
  skipn (List.length (VariantB.messages fresh_B))
    (VariantB.messages (RunB.after_send backend_cannot_create fresh_B))
  = [RunB.tempUserMessage backend_cannot_create fresh_B 0;
     RunB.errorMessage backend_cannot_create fresh_B 2
       (mkError (lit "Failed to fetch"))] /\
  NoDup (map Message.id
           (skipn (List.length (VariantB.messages fresh_B))
              (VariantB.messages (RunB.after_send backend_cannot_create fresh_B)))).
Proof.
  apply (X13_distinct_ids backend_cannot_create fresh_B
           (mkError (lit "Failed to fetch"))).
  - split; reflexivity.
  - left. reflexivity.
  - vm_compute. discriminate.
Defined.

(** X14: while the requests of a send are outstanding the input is
    empty.  In the first variant the thread is still the one shown before
    the send, the submitted text is held in [pendingUserInput] and the
    error is empty, and [pendingUserInput] is empty once the send has
    completed. *)
Theorem X14_state_in_flight (env : Env) :
  (forall s : VariantA.State,
      RunA.sendable s ->
      Forall (fun st =>
                VariantA.input st = [] /\
                VariantA.pendingUserInput st = VariantA.input s /\
                VariantA.messages st = VariantA.messages s /\
                VariantA.error st = [])
        (snapshots (RunA.send_log env s)) /\
      VariantA.pendingUserInput (RunA.after_send env s) = []) /\
  (forall s : VariantB.State,
      RunB.sendable s ->
      Forall (fun st => VariantB.input st = [])
        (snapshots (RunB.send_log env s))).
Proof.
  split; intros s Hs.
  - exact (MoreA.send_in_flight_A env s Hs).
  - eapply Forall_impl; [|exact (MoreB.send_in_flight_B env s Hs)].
    intros st [H _]. exact H.
Qed.

Lemma X14_state_in_flight_witness :
  VariantA.pendingUserInput (RunA.after_send backend_up fresh_A) = [].
Proof.
  apply (proj2 (proj1 (X14_state_in_flight backend_up) fresh_A
                  (conj eq_refl eq_refl))).
Defined.

(** ** Composing actions *)

(** X15: New Chat, then typing a text that is not blank, then Send, in an
    idle state: the first request of the send creates a conversation,
    whatever was selected before, titled by the first 50 code units of
    the text in the first variant and "Conversation" in the second. *)
Theorem X15_new_chat_then_send (env env' : Env) (t : jsstring) :
  truthy (trim t) = true ->
  (forall s : VariantA.State,
      VariantA.isLoading s = false ->
      let s1 := w_state (snd (run env VariantA.handleNewChat (init_world s))) in
      let s2 := w_state (snd (run env (VariantA.onChange t) (init_world s1))) in
      hd_error (requests (RunA.send_log env' s2))
      = Some (POST_conversations (firstn 50 t))) /\
  (forall s : VariantB.State,
      VariantB.isLoading s = false ->
      let s1 := w_state (snd (run env VariantB.handleNewChat (init_world s))) in
      let s2 := w_state (snd (run env (VariantB.onChange t) (init_world s1))) in
      hd_error (requests (RunB.send_log env' s2))
      = Some (POST_conversations (lit "Conversation"))).
Proof.
  intros Ht. split; intros s Hl.
  - exact (MoreA.new_chat_then_send_A env env' s t Hl Ht).
  - exact (MoreB.new_chat_then_send_B env env' s t Hl Ht).
Qed.

Lemma X15_new_chat_then_send_witness :
  let s1 := w_state (snd (run backend_up VariantA.handleNewChat (init_world open_A))) in
  let s2 := w_state (snd (run backend_up (VariantA.onChange hi) (init_world s1))) in
  hd_error (requests (RunA.send_log backend_up s2))
  = Some (POST_conversations (firstn 50 hi)).
Proof.
  apply (proj1 (X15_new_chat_then_send backend_up backend_up hi eq_refl) open_A).
  reflexivity.
Defined.

(** X16: once a send has reached a conversation (the selected one or the
    one it created), that conversation is selected afterwards whether the
    message was accepted or not, and the next send of a text that is not
    blank goes to it at once, without creating a conversation. *)
Theorem X16_next_send_same_conversation (env env' : Env) (t : jsstring) :
  truthy (trim t) = true ->
  (forall (s : VariantA.State) (c : Conversation.t),
      RunA.sendable s ->
      RunA.target env s = Returned c ->
      VariantA.currentConversation (RunA.after_send env s) = Some c /\
      let s2 := w_state (snd (run env (VariantA.onChange t)
                                (init_world (RunA.after_send env s)))) in
      hd_error (numbered (RunA.send_log env' s2))
      = Some (0%nat, POST_messages (Conversation.id c) t)) /\
  (forall (s : VariantB.State) (c : Conversation.t),
      RunB.sendable s ->
      RunB.target env s = Returned c ->
      VariantB.currentConversation (RunB.after_send env s) = Some c /\
      let s2 := w_state (snd (run env (VariantB.onChange t)
                                (init_world (RunB.after_send env s)))) in
      hd_error (numbered (RunB.send_log env' s2))
      = Some (0%nat, POST_messages (Conversation.id c) t)).
Proof.
  intros Hn. split; intros s c Hs Ht.
  - split.
    + rewrite (MoreA.send_selection_A env s Hs), Ht. reflexivity.
    + exact (MoreA.next_send_A env env' s c t Hs Ht Hn).
  - split.
    + rewrite (MoreB.send_selection_B env s Hs), Ht. reflexivity.
    + exact (MoreB.next_send_B env env' s c t Hs Ht Hn).
Qed.

Lemma X16_next_send_same_conversation_witness :
  VariantB.currentConversation (RunB.after_send backend_rejects_message fresh_B)
  = Some c1 /\
  let s2 := w_state (snd (run backend_rejects_message (VariantB.onChange hi)
                            (init_world (RunB.after_send backend_rejects_message
                                           fresh_B)))) in
  hd_error (numbered (RunB.send_log backend_up s2))
  = Some (0%nat, POST_messages (Conversation.id c1) hi).
Proof.
  apply (proj2 (X16_next_send_same_conversation backend_rejects_message backend_up
                  hi eq_refl) fresh_B c1).
  - split; reflexivity.
  - reflexivity.
Defined.

(** X17: a send with a conversation selected starts no refresh and leaves
    the list of conversations as it was.  A send that created a
    conversation started one refresh; once its response has arrived,
    during the send or after it, the list is the parsed body of that
    response, or the old list when the refresh failed. *)
Theorem X17_sidebar_after_send (env : Env) :
  (forall s : VariantA.State,
      RunA.sendable s ->
      VariantA.currentConversation s <> None ->
      w_pool (snd (RunA.send env s)) = [] /\
      VariantA.conversations (RunA.after_send env s) = VariantA.conversations s) /\
  (forall (s : VariantA.State) (c : Conversation.t),
      RunA.sendable s ->
      VariantA.currentConversation s = None ->
      RunA.target env s = Returned c ->
      VariantA.conversations
        (w_state (settle env [0%nat] (snd (RunA.send env s))))
      = match parsed (respond env 1 GET_conversations) with
        | Some l => l
        | None => VariantA.conversations s
        end) /\
  (forall s : VariantB.State,
      RunB.sendable s ->
      VariantB.currentConversation s <> None ->
      w_pool (snd (RunB.send env s)) = [] /\
      VariantB.conversations (RunB.after_send env s) = VariantB.conversations s) /\
  (forall (s : VariantB.State) (c : Conversation.t),
      RunB.sendable s ->
      VariantB.currentConversation s = None ->
      RunB.target env s = Returned c ->
      VariantB.conversations
        (w_state (settle env [0%nat] (snd (RunB.send env s))))
      = match parsed (respond env 1 GET_conversations) with
        | Some l => l
        | None => VariantB.conversations s
        end).
Proof.
  split; [|split; [|split]].
  - intros s Hs Hn. exact (MoreA.send_sidebar_selected_A env s Hs Hn).
  - intros s c Hs Hn Ht. exact (MoreA.send_sidebar_A env s c Hs Hn Ht).
  - intros s Hs Hn. exact (MoreB.send_sidebar_selected_B env s Hs Hn).
  - intros s c Hs Hn Ht. exact (MoreB.send_sidebar_B env s c Hs Hn Ht).
Qed.

Lemma X17_sidebar_after_send_witness :
  VariantA.conversations
    (w_state (settle backend_up [0%nat] (snd (RunA.send backend_up fresh_A))))
  = match parsed (respond backend_up 1 GET_conversations) with
    | Some l => l
    | None => VariantA.conversations fresh_A
    end.
Proof.
  apply (proj1 (proj2 (X17_sidebar_after_send backend_up)) fresh_A c1).
  - split; reflexivity.
  - reflexivity.
  - reflexivity.
Defined.

(** ** The API client *)

(** X18: [createMessage] sends one request and changes no state; it
    returns the parsed message when the status is in 200-299 and the body
    parses, throws "Failed to send message: ", the status, " - " and the
    text of the response when the status is outside 200-299, and throws
    the failure of the network or of the parser otherwise. *)
Theorem X18_createMessage (St : Type) (env : Env) (conversationId : Z)
        (content : jsstring) (s : St) :
  let x := respond env 0 (POST_messages conversationId content) in
  let r := run env (createMessage conversationId content) (init_world s) in
  numbered (w_log (snd r)) = [(0%nat, POST_messages conversationId content)] /\
  w_state (snd r) = s /\
  (forall m, answered x m -> fst r = Returned m) /\
  (forall resp,
      x = Responded resp -> ok resp = false ->
      fst r = Threw (mkError (lit "Failed to send message: "
                                ++ of_number (status resp)
                                ++ lit " - " ++ body_text resp))) /\
  (forall msg, x = NetworkError msg -> fst r = Threw (mkError msg)) /\
  (forall resp msg,
      x = Responded resp -> ok resp = true ->
      body_json resp = JsonSyntaxError msg ->
      fst r = Threw (mkError msg)).
Proof.
  intros x r. unfold r, x. rewrite run_createMessage. await_cases.
  repeat split.
  - intros m H. exact (sent_answered _ m H).
  - intros resp -> Hok. exact (sent_unsuccessful resp Hok).
  - intros msg ->. reflexivity.
  - intros resp msg -> Hok Hb. unfold sent. rewrite Hok, Hb. reflexivity.
Qed.

(** X19: [createConversation] sends one request and changes no state; it
    returns the parsed body of the response whatever the status is, and
    throws only on a network failure or a body that does not parse. *)
Theorem X19_createConversation (St : Type) (env : Env) (title : jsstring) (s : St) :
  let x := respond env 0 (POST_conversations title) in
  let r := run env (createConversation title) (init_world s) in
  numbered (w_log (snd r)) = [(0%nat, POST_conversations title)] /\
  w_state (snd r) = s /\
  (forall resp c,
      x = Responded resp -> body_json resp = JsonOk c -> fst r = Returned c) /\
  (forall msg, x = NetworkError msg -> fst r = Threw (mkError msg)) /\
  (forall resp msg,
      x = Responded resp -> body_json resp = JsonSyntaxError msg ->
      fst r = Threw (mkError msg)).
Proof.
  intros x r. unfold r, x. rewrite run_createConversation. await_cases.
  repeat split.
  - intros resp c -> Hb. unfold created. rewrite Hb. reflexivity.
  - intros msg ->. reflexivity.
  - intros resp msg -> Hb. unfold created. rewrite Hb. reflexivity.
Qed.

(** ** What is shown *)

(** X20: the welcome text is never shown together with the loading
    dots; New Chat in an idle state shows it; after a send of the second
    variant it is not shown, since the thread holds at least the
    optimistic message and the reply or error notice. *)
Theorem X20_welcome (env : Env) :
  (forall st : VariantA.State,
      VariantA.showsWelcome st = true -> VariantA.showsLoading st = false) /\
  (forall w : World VariantA.State,
      VariantA.isLoading (w_state w) = false ->
      VariantA.showsWelcome (w_state (snd (run env VariantA.handleNewChat w)))
      = true) /\
  (forall st : VariantB.State,
      VariantB.showsWelcome st = true -> VariantB.showsLoading st = false) /\
  (forall w : World VariantB.State,
      VariantB.isLoading (w_state w) = false ->
      VariantB.showsWelcome (w_state (snd (run env VariantB.handleNewChat w)))
      = true) /\
  (forall s : VariantB.State,
      RunB.sendable s ->
      VariantB.showsWelcome (RunB.after_send env s) = false).
Proof.
  split; [|split; [|split; [|split]]].
  - intros st. unfold VariantA.showsWelcome, VariantA.showsLoading.
    rewrite andb_true_iff, negb_true_iff. tauto.
  - exact (MoreA.new_chat_welcome_A env).
  - intros st. unfold VariantB.showsWelcome, VariantB.showsLoading.
    rewrite andb_true_iff, negb_true_iff. tauto.
  - exact (MoreB.new_chat_welcome_B env).
  - exact (MoreB.send_never_welcome_B env).
Qed.

Lemma X20_welcome_witness :
  VariantB.showsWelcome (RunB.after_send backend_up fresh_B) = false.
Proof.
  apply (proj2 (proj2 (proj2 (proj2 (X20_welcome backend_up)))) fresh_B).
  split; reflexivity.
Defined.

(** X21: after a failed send of the first variant the Send button is
    enabled again with the submitted text in the input, and pressing it
    retries that text in the conversation the first attempt went to,
    without creating another conversation. *)
Theorem X21_retry_after_failed_send (env env' : Env) (s : VariantA.State)
        (c : Conversation.t) (e : Error) :
  RunA.sendable s ->
  RunA.target env s = Returned c ->
  RunA.reply env s c = Threw e ->
  VariantA.sendDisabled (RunA.after_send env s) = false /\
  hd_error (numbered (RunA.send_log env' (RunA.after_send env s)))
  = Some (0%nat, POST_messages (Conversation.id c) (VariantA.input s)).
Proof.
  intros Hs Ht Hr.
  destruct (FactsA.failed_send_A env s c e Hs Ht Hr) as [Hi Hc].
  assert (Hs2 : RunA.sendable (RunA.after_send env s)).
  { split; [rewrite Hi; exact (proj1 Hs)|].
    exact (proj2 (proj2 (FactsA.send_loading_A env s Hs))). }
  split; [exact (proj2 (MoreA.sendDisabled_sendable_A _) Hs2)|].
  rewrite (FactsA.send_numbered_A env' _ Hs2).
  unfold RunA.send_requests, RunA.post_no. rewrite Hc, Hi. reflexivity.
Qed.

Lemma X21_retry_after_failed_send_witness :
  VariantA.sendDisabled (RunA.after_send backend_rejects_message fresh_A) = false /\
  hd_error (numbered (RunA.send_log backend_up
                        (RunA.after_send backend_rejects_message fresh_A)))
  = Some (0%nat, POST_messages (Conversation.id c1) (VariantA.input fresh_A)).
Proof.
  eapply (X21_retry_after_failed_send backend_rejects_message backend_up fresh_A c1).
  - split; reflexivity.
  - reflexivity.
  - vm_compute. reflexivity.
Defined.

Lemma X11_conversation_not_created_witness :
  numbered (RunA.send_log backend_cannot_create fresh_A)
  = [(0%nat, POST_conversations (firstn 50 (VariantA.input fresh_A)))] /\
  VariantA.currentConversation (RunA.after_send backend_cannot_create fresh_A) = None /\
  VariantA.messages (RunA.after_send backend_cannot_create fresh_A)
  = VariantA.messages fresh_A /\
  VariantA.input (RunA.after_send backend_cannot_create fresh_A)
  = VariantA.input fresh_A.
Proof.
  eapply (proj1 (X11_conversation_not_created backend_cannot_create) fresh_A).
  - split; reflexivity.
  - vm_compute. reflexivity.
Defined.

Lemma X18_createMessage_witness :
  fst (run backend_rejects_message (createMessage 1 hi) (init_world open_A))
  = Threw (mkError (lit "Failed to send message: " ++ of_number 500
                      ++ lit " - " ++ lit "boom")).
Proof.
  apply (proj1 (proj2 (proj2 (proj2
           (X18_createMessage VariantA.State backend_rejects_message 1 hi open_A))))
           server_error);
    reflexivity.
Defined.

Lemma X19_createConversation_witness :
  fst (run backend_up (createConversation hi) (init_world open_A)) = Returned c1.
Proof.
  apply (proj1 (proj2 (proj2
           (X19_createConversation VariantA.State backend_up hi open_A)))
           (mkResponse 200 [] (JsonOk c1)) c1);
    reflexivity.
Defined.

(** X22: in the first variant a click on a conversation replaces whatever
    error was shown: the error is empty after a fetch that succeeded and
    "Failed to load messages" after a fetch that failed for any reason
    (network, status or body). *)
Theorem X22_click_error (env : Env) (s : VariantA.State) (id : Z) :
  (forall l,
      answered (respond env 0 (GET_messages id)) l ->
      VariantA.error (RunA.after_select env s id) = [] /\
      VariantA.showsError (RunA.after_select env s id) = false) /\
  (unreadable (respond env 0 (GET_messages id)) \/
   unsuccessful (respond env 0 (GET_messages id)) ->
   VariantA.error (RunA.after_select env s id) = lit "Failed to load messages" /\
   VariantA.showsError (RunA.after_select env s id) = true).
Proof.
  unfold VariantA.showsError. rewrite FactsA.select_error. split.
  - intros l H. rewrite (fetched_answered _ l H). split; reflexivity.
  - intros H. destruct (fetched_failed _ H) as [e ->]. split; reflexivity.
Qed.

Lemma X22_click_error_witness :
  VariantA.error (RunA.after_select backend_unreachable open_A 1)
  = lit "Failed to load messages" /\
  VariantA.showsError (RunA.after_select backend_unreachable open_A 1) = true.
Proof.
  apply (proj2 (X22_click_error backend_unreachable open_A 1)).
  left. exact I.
Defined.
